(** * DocuChat AI: a shallow embedding of the upload, dispatch and summary logic

    The development follows the layout of the repository:

    - [JS]             the few pieces of JavaScript string semantics the code
                       relies on ([split], [trim], truthiness, [||]);
    - [Types]          [types.ts];
    - [GeminiService]  [services/geminiService.ts];
    - [FileUpload]     [components/FileUpload.tsx] ([processFiles]);
    - [ChatInterface]  [components/ChatInterface.tsx] ([handleSendMessage],
                       [handleGenerateSummary]);
    - [App]            [App.tsx] and the mounting of the two components.

    Strings are [string] (sequences of bytes), sizes and clock readings are
    [Z].  The module-level [chatSession] variable, the log of remote calls
    and React component state are threaded explicitly. *)

From Stdlib Require Import String Ascii List ZArith Lia Bool DecimalString.
Import ListNotations.
Open Scope string_scope.
Open Scope list_scope.

Infix "+++" := String.append (right associativity, at level 60).

(* ===================================================================== *)
(** ** JavaScript string primitives *)
(* ===================================================================== *)

Module JS.

(** A value of type [string | undefined]. *)
Definition maybe := option string.

(** Truthiness of a [string | undefined]: [undefined] and [""] are falsy. *)
Definition truthy (v : maybe) : bool :=
  match v with
  | Some (String _ _) => true
  | _ => false
  end.

(** [v || d] for a [string | undefined] on the left. *)
Definition or_else (v : maybe) (d : string) : string :=
  if truthy v then match v with Some s => s | None => d end else d.

(** [s.split(sep)] for a one-character separator: always at least one
    segment, empty segments kept. *)
Fixpoint split (sep : ascii) (s : string) : list string :=
  match s with
  | EmptyString => [EmptyString]
  | String c r =>
      if Ascii.eqb c sep then EmptyString :: split sep r
      else match split sep r with
           | [] => [String c EmptyString]
           | h :: t => String c h :: t
           end
  end.

(** [arr[i]]: [undefined] out of range. *)
Definition index {A} (arr : list A) (i : nat) : option A := nth_error arr i.

Definition isSpace (c : ascii) : bool :=
  let n := nat_of_ascii c in
  (Nat.eqb n 32 || Nat.eqb n 9 || Nat.eqb n 10 || Nat.eqb n 11 ||
   Nat.eqb n 12 || Nat.eqb n 13)%bool.

Fixpoint trimStart (s : string) : string :=
  match s with
  | EmptyString => EmptyString
  | String c r => if isSpace c then trimStart r else s
  end.

Fixpoint trimEnd (s : string) : string :=
  match s with
  | EmptyString => EmptyString
  | String c r =>
      match trimEnd r with
      | EmptyString => if isSpace c then EmptyString else String c EmptyString
      | r' => String c r'
      end
  end.

(** [s.trim()] on ASCII white space. *)
Definition trim (s : string) : string := trimEnd (trimStart s).

Definition isEmpty (s : string) : bool :=
  match s with EmptyString => true | _ => false end.

(** [n.toString()] for an integer. *)
Definition toString (n : Z) : string := NilZero.string_of_int (Z.to_int n).

(** [needle] occurs in [s] ([s.includes(needle)]). *)
Fixpoint includes (needle s : string) : bool :=
  match s with
  | EmptyString => isEmpty needle
  | String _ r => (String.prefix needle s || includes needle r)%bool
  end.

(** The character [c] occurs in [s]. *)
Fixpoint hasChar (c : ascii) (s : string) : bool :=
  match s with
  | EmptyString => false
  | String d r => (Ascii.eqb d c || hasChar c r)%bool
  end.

Definition comma : ascii := "044"%char.
Definition dquote : string := String "034"%char EmptyString.
Definition nl : string := String "010"%char EmptyString.

End JS.

(* ===================================================================== *)
(** ** types.ts *)
(* ===================================================================== *)

Module Types.

Inductive Role := user | model.

Record Message := {
  id : string;
  role : Role;
  text : string;
  timestamp : Z;
  isError : option bool
}.

Record UploadedFile := {
  name : string;
  type : string;
  data : string;
  size : Z
}.

Inductive AppState := UPLOAD | CHAT.

End Types.

(* ===================================================================== *)
(** ** services/geminiService.ts *)
(* ===================================================================== *)

Module GeminiService.

Definition MODEL_NAME : string := "gemini-2.5-flash".

Definition SYSTEM_INSTRUCTION : string :=
  "You are a specialized document analysis assistant. " +++ JS.nl +++
  "Your task is to answer user questions strictly based on the provided PDF documents." +++ JS.nl +++
  "1. If the answer is found in the documents, provide a clear and concise response." +++ JS.nl +++
  "2. If the answer is partially found, mention what is available and what is missing." +++ JS.nl +++
  "3. If the answer is not found in the documents, explicitly state that the information is not contained in the provided text." +++ JS.nl +++
  "4. Do not use outside knowledge to answer questions unless specifically asked to explain a general concept found in the text." +++ JS.nl +++
  "5. Format your responses using clean Markdown.".

Definition SUMMARY_PROMPT : string :=
  "Please provide a concise and structured summary of all these documents. Highlight key takeaways, main topics, and any critical findings. Use bullet points where appropriate.".

Definition SUMMARY_FALLBACK : string :=
  "I was unable to generate a summary for these documents.".

(** A [Chat] object is identified by the rank of the [ai.chats.create]
    call that made it. *)
Definition Chat := nat.

Inductive Part :=
| InlineData (data mimeType : string)
| TextPart (text : string).

(** What goes over the wire. *)
Inductive Call :=
| ChatsCreate (model systemInstruction : string)
| ChatSend (session : Chat) (parts : list Part)
| GenerateContent (model : string) (parts : list Part) (systemInstruction : string).

(** The module state: [chatSession] and the client [ai], the latter seen
    through the number of sessions it has created and the calls it has
    made (oldest first). *)
Record Service := {
  chatSession : option Chat;
  created : nat;
  calls : list Call
}.

Definition initial : Service :=
  {| chatSession := None; created := 0; calls := [] |}.

Definition emit (c : Call) (s : Service) : Service :=
  {| chatSession := chatSession s; created := created s; calls := calls s ++ [c] |}.

Inductive Error :=
| InitError (message : string)
| ApiError.

Inductive Outcome (A : Type) :=
| Resolved (a : A)
| Rejected (e : Error).
Arguments Resolved {A} a.
Arguments Rejected {A} e.

(** The remote side of a streaming call: the chunks' [text] fields in
    arrival order, and whether the call or the stream then fails. *)
Record StreamReply := {
  chunks : list JS.maybe;
  failed : bool
}.

(** The remote side of [generateContent]. *)
Inductive GenerateReply :=
| GenerateOk (text : JS.maybe)
| GenerateFail.

Definition initializeChat (s : Service) : Service :=
  {| chatSession := Some (created s);
     created := S (created s);
     calls := calls s ++ [ChatsCreate MODEL_NAME SYSTEM_INSTRUCTION] |}.

(** [file.data.split(',')[1] || file.data] *)
Definition base64Data (data : string) : string :=
  JS.or_else (JS.index (JS.split JS.comma data) 1) data.

Definition filePart (file : Types.UploadedFile) : Part :=
  InlineData (base64Data (Types.data file)) (Types.type file).

Definition generateSummary (files : list Types.UploadedFile)
    (reply : GenerateReply) (s : Service) : Outcome string * Service :=
  let fileParts := map filePart files in
  let s' := emit (GenerateContent MODEL_NAME
                    (fileParts ++ [TextPart SUMMARY_PROMPT])
                    SYSTEM_INSTRUCTION) s in
  match reply with
  | GenerateOk text => (Resolved (JS.or_else text SUMMARY_FALLBACK), s')
  | GenerateFail => (Rejected ApiError, s')
  end.

(** Lines 68-70: [if (!chatSession) initializeChat()]. *)
Definition ensureSession (s : Service) : Service :=
  match chatSession s with
  | None => initializeChat s
  | Some _ => s
  end.

Section Dispatch.

(** The caller's state, on which the progress callback acts. *)
Context {U : Type}.

(** The [for await] loop over the chunks. *)
Fixpoint consume (onChunk : option (string -> U -> U))
    (cs : list JS.maybe) (fullResponse : string) (u : U) : string * U :=
  match cs with
  | [] => (fullResponse, u)
  | chunkText :: rest =>
      if JS.truthy chunkText then
        let fullResponse' :=
          fullResponse +++ match chunkText with Some t => t | None => "" end in
        consume onChunk rest fullResponse'
          match onChunk with
          | Some f => f fullResponse' u
          | None => u
          end
      else consume onChunk rest fullResponse u
  end.

Definition messageParts (text : string)
    (files : option (list Types.UploadedFile)) : list Part :=
  match files with
  | Some (f :: fs) => map filePart (f :: fs) ++ [TextPart text]
  | _ => [TextPart text]
  end.

Definition sendMessageStream (text : string)
    (files : option (list Types.UploadedFile))
    (onChunk : option (string -> U -> U))
    (reply : StreamReply) (s : Service) (u : U)
    : Outcome string * Service * U :=
  let s1 := ensureSession s in
  match chatSession s1 with
  | None => (Rejected (InitError "Failed to initialize chat session"), s1, u)
  | Some chat =>
      let s2 := emit (ChatSend chat (messageParts text files)) s1 in
      let '(fullResponse, u') := consume onChunk (chunks reply) "" u in
      if failed reply then (Rejected ApiError, s2, u')
      else (Resolved fullResponse, s2, u')
  end.

End Dispatch.

(** A progress callback that records every value it is given. *)
Definition record (v : string) (seen : list string) : list string := seen ++ [v].

(** *** Vocabulary of the statements *)

(** The texts of the chunks the loop does not skip. *)
Fixpoint fragments (cs : list JS.maybe) : list string :=
  match cs with
  | [] => []
  | Some (String c r) :: rest => String c r :: fragments rest
  | _ :: rest => fragments rest
  end.

(** The running totals of [ds], starting from [acc]. *)
Fixpoint running (acc : string) (ds : list string) : list string :=
  match ds with
  | [] => []
  | d :: rest => (acc +++ d) :: running (acc +++ d) rest
  end.

Definition total (ds : list string) : string := fold_left String.append ds "".

(** [b] is [a] followed by something. *)
Definition extends (a b : string) : Prop :=
  exists d, d <> "" /\ b = a +++ d.

Fixpoint growing (l : list string) : Prop :=
  match l with
  | a :: (b :: _) as rest => extends a b /\ growing rest
  | _ => True
  end.

(** At most one session has ever been created, and it is the live one. *)
Definition oneSession (s : Service) : Prop :=
  match chatSession s with
  | None => created s = 0
  | Some h => created s = 1 /\ h = 0
  end.

(** What [FileReader.readAsDataURL] produces for a payload. *)
Definition dataURL (mime payload : string) : string :=
  "data:" +++ mime +++ ";base64," +++ payload.

Definition isInline (p : Part) : bool :=
  match p with InlineData _ _ => true | TextPart _ => false end.

(** The sessions the calls of a log were sent through, paired with whether
    the message carried file payloads. *)
Fixpoint dispatches (cs : list Call) : list (Chat * bool) :=
  match cs with
  | [] => []
  | ChatSend h parts :: rest => (h, existsb isInline parts) :: dispatches rest
  | _ :: rest => dispatches rest
  end.

End GeminiService.

(* ===================================================================== *)
(** ** components/FileUpload.tsx *)
(* ===================================================================== *)

Module FileUpload.

(** The browser's [File]: what [processFiles] looks at before reading. *)
Record File := {
  name : string;
  type : string;
  size : Z
}.

Record State := {
  isDragging : bool;
  error : option string;
  isLoading : bool
}.

Definition mount : State :=
  {| isDragging := false; error := None; isLoading := false |}.

Definition setError (e : option string) (st : State) : State :=
  {| isDragging := isDragging st; error := e; isLoading := isLoading st |}.

Definition setIsLoading (b : bool) (st : State) : State :=
  {| isDragging := isDragging st; error := error st; isLoading := b |}.

Definition wrongType (file : File) : bool :=
  negb (String.eqb (type file) "application/pdf").

Definition tooLarge (file : File) : bool :=
  (size file >? 20 * 1024 * 1024)%Z.

Definition typeMessage : string := "Only PDF files are allowed.".

Definition sizeMessage (file : File) : string :=
  "File " +++ JS.dquote +++ name file +++ JS.dquote +++ " exceeds 20MB limit.".

(** A file the validation loop steps over. *)
Definition accepted (file : File) : Prop :=
  type file = "application/pdf" /\ (size file <= 20 * 1024 * 1024)%Z.

(** The validation loop: the message of the first violation, if any. *)
Fixpoint validate (files : list File) : option string :=
  match files with
  | [] => None
  | file :: rest =>
      if wrongType file then Some typeMessage
      else if tooLarge file then Some (sizeMessage file)
      else validate rest
  end.

Section Process.

(** The parent's state, on which [onFileSelect] acts. *)
Context {P : Type}.

(** [FileReader.readAsDataURL]: the data URL, or [None] for [onerror]. *)
Variable readAsDataURL : File -> option string.
Variable onFileSelect : list Types.UploadedFile -> P -> P.

Definition readOne (file : File) : option Types.UploadedFile :=
  match readAsDataURL file with
  | Some base64Data =>
      Some {| Types.name := name file;
              Types.type := type file;
              Types.size := size file;
              Types.data := base64Data |}
  | None => None
  end.

(** [Promise.all(files.map(...))]: every file, in order, or a failure. *)
Fixpoint readAll (files : list File) : option (list Types.UploadedFile) :=
  match files with
  | [] => Some []
  | file :: rest =>
      match readOne file, readAll rest with
      | Some u, Some us => Some (u :: us)
      | _, _ => None
      end
  end.

(** What one call does: the component's state, the parent's state and
    the files handed to a [FileReader]. *)
Record Effect := {
  state : State;
  parent : P;
  reads : list File
}.

Definition processFiles (fileList : list File) (st : State) (p : P) : Effect :=
  let st0 := setError None st in
  match fileList with
  | [] => {| state := st0; parent := p; reads := [] |}
  | _ :: _ =>
      match validate fileList with
      | Some message =>
          {| state := setError (Some message) st0; parent := p; reads := [] |}
      | None =>
          let st1 := setIsLoading true st0 in
          match readAll fileList with
          | Some uploadedFiles =>
              {| state := setIsLoading false st1;
                 parent := onFileSelect uploadedFiles p;
                 reads := fileList |}
          | None =>
              {| state := setIsLoading false
                   (setError (Some "Failed to process files. Please try again.") st1);
                 parent := p;
                 reads := fileList |}
          end
      end
  end.

End Process.

End FileUpload.

(* ===================================================================== *)
(** ** components/ChatInterface.tsx *)
(* ===================================================================== *)

Module ChatInterface.

Import GeminiService.

Record State := {
  messages : list Types.Message;
  inputValue : string;
  isLoading : bool;
  isExportMenuOpen : bool;
  streamingContent : string;
  isListening : bool;
  isSummaryModalOpen : bool;
  isSummarizing : bool;
  summaryContent : string
}.

Definition mount : State :=
  {| messages := []; inputValue := ""; isLoading := false;
     isExportMenuOpen := false; streamingContent := "";
     isListening := false; isSummaryModalOpen := false;
     isSummarizing := false; summaryContent := "" |}.

Definition setMessages (f : list Types.Message -> list Types.Message)
    (st : State) : State :=
  {| messages := f (messages st); inputValue := inputValue st;
     isLoading := isLoading st; isExportMenuOpen := isExportMenuOpen st;
     streamingContent := streamingContent st; isListening := isListening st;
     isSummaryModalOpen := isSummaryModalOpen st;
     isSummarizing := isSummarizing st; summaryContent := summaryContent st |}.

Definition setInputValue (v : string) (st : State) : State :=
  {| messages := messages st; inputValue := v;
     isLoading := isLoading st; isExportMenuOpen := isExportMenuOpen st;
     streamingContent := streamingContent st; isListening := isListening st;
     isSummaryModalOpen := isSummaryModalOpen st;
     isSummarizing := isSummarizing st; summaryContent := summaryContent st |}.

Definition setIsLoading (b : bool) (st : State) : State :=
  {| messages := messages st; inputValue := inputValue st;
     isLoading := b; isExportMenuOpen := isExportMenuOpen st;
     streamingContent := streamingContent st; isListening := isListening st;
     isSummaryModalOpen := isSummaryModalOpen st;
     isSummarizing := isSummarizing st; summaryContent := summaryContent st |}.

Definition setStreamingContent (v : string) (st : State) : State :=
  {| messages := messages st; inputValue := inputValue st;
     isLoading := isLoading st; isExportMenuOpen := isExportMenuOpen st;
     streamingContent := v; isListening := isListening st;
     isSummaryModalOpen := isSummaryModalOpen st;
     isSummarizing := isSummarizing st; summaryContent := summaryContent st |}.

Definition setIsSummaryModalOpen (b : bool) (st : State) : State :=
  {| messages := messages st; inputValue := inputValue st;
     isLoading := isLoading st; isExportMenuOpen := isExportMenuOpen st;
     streamingContent := streamingContent st; isListening := isListening st;
     isSummaryModalOpen := b;
     isSummarizing := isSummarizing st; summaryContent := summaryContent st |}.

Definition setIsSummarizing (b : bool) (st : State) : State :=
  {| messages := messages st; inputValue := inputValue st;
     isLoading := isLoading st; isExportMenuOpen := isExportMenuOpen st;
     streamingContent := streamingContent st; isListening := isListening st;
     isSummaryModalOpen := isSummaryModalOpen st;
     isSummarizing := b; summaryContent := summaryContent st |}.

Definition setSummaryContent (v : string) (st : State) : State :=
  {| messages := messages st; inputValue := inputValue st;
     isLoading := isLoading st; isExportMenuOpen := isExportMenuOpen st;
     streamingContent := streamingContent st; isListening := isListening st;
     isSummaryModalOpen := isSummaryModalOpen st;
     isSummarizing := isSummarizing st; summaryContent := v |}.

Definition DISPATCH_FAILURE : string :=
  "I'm sorry, I encountered an error while processing your request. Please try again.".

Definition SUMMARY_FAILURE : string :=
  "Failed to generate summary. Please check your connection and try again.".

Section Handlers.

(** The [files] prop. *)
Variable files : list Types.UploadedFile.

(** [now k] is the [k]-th reading of [Date.now()] within one handler. *)
Variable now : nat -> Z.

Definition userMessage (userText : string) : Types.Message :=
  {| Types.id := JS.toString (now 0);
     Types.role := Types.user;
     Types.text := userText;
     Types.timestamp := now 1;
     Types.isError := None |}.

Definition modelMessage (responseText : string) : Types.Message :=
  {| Types.id := JS.toString (now 2 + 1);
     Types.role := Types.model;
     Types.text := responseText;
     Types.timestamp := now 3;
     Types.isError := None |}.

Definition errorMessage : Types.Message :=
  {| Types.id := JS.toString (now 2 + 1);
     Types.role := Types.model;
     Types.text := DISPATCH_FAILURE;
     Types.timestamp := now 3;
     Types.isError := Some true |}.

(** [handleSendMessage].  [st] is the state of the render whose closure
    the handler runs in: [messages.length] is read from it, after the
    user's turn has been queued. *)
Definition handleSendMessage (reply : StreamReply)
    (s : Service) (st : State) : Service * State :=
  if (JS.isEmpty (JS.trim (inputValue st)) || isLoading st)%bool then (s, st)
  else
    let userText := JS.trim (inputValue st) in
    let st1 := setInputValue "" st in
    let st2 := setMessages (fun prev => prev ++ [userMessage userText]) st1 in
    let st3 := setIsLoading true st2 in
    let st4 := setStreamingContent "" st3 in
    let isFirstMessage := Nat.eqb (List.length (messages st)) 0 in
    let '(result, s', st5) :=
      sendMessageStream userText
        (if isFirstMessage then Some files else None)
        (Some setStreamingContent) reply s st4 in
    let st6 :=
      match result with
      | Resolved responseText =>
          setMessages (fun prev => prev ++ [modelMessage responseText]) st5
      | Rejected _ =>
          setMessages (fun prev => prev ++ [errorMessage]) st5
      end in
    (s', setStreamingContent "" (setIsLoading false st6)).

Definition handleGenerateSummary (reply : GenerateReply)
    (s : Service) (st : State) : Service * State :=
  if isSummarizing st then (s, st)
  else
    let st1 := setIsSummarizing true st in
    let st2 := setIsSummaryModalOpen true st1 in
    let '(result, s') := generateSummary files reply s in
    let st3 :=
      match result with
      | Resolved summary => setSummaryContent summary st2
      | Rejected _ => setSummaryContent SUMMARY_FAILURE st2
      end in
    (s', setIsSummarizing false st3).

End Handlers.

End ChatInterface.

(* ===================================================================== *)
(** ** App.tsx *)
(* ===================================================================== *)

Module App.

Record State := {
  appState : Types.AppState;
  currentFiles : list Types.UploadedFile;
  isDarkMode : bool
}.

Definition handleFileSelect (files : list Types.UploadedFile) (a : State) : State :=
  {| appState := Types.CHAT; currentFiles := files; isDarkMode := isDarkMode a |}.

(** [confirmed] is the answer to [window.confirm]. *)
Definition handleBack (confirmed : bool) (a : State) : State :=
  if confirmed then
    {| appState := Types.UPLOAD; currentFiles := []; isDarkMode := isDarkMode a |}
  else a.

(** The page: the application state, the component instance that is
    mounted with its own state, and the service module. *)
Record Page := {
  app : State;
  upload : option FileUpload.State;
  chat : option ChatInterface.State;
  service : GeminiService.Service
}.

Definition showsUpload (a : State) : bool :=
  match appState a with Types.UPLOAD => true | Types.CHAT => false end.

Definition showsChat (a : State) : bool :=
  match appState a, currentFiles a with
  | Types.CHAT, _ :: _ => true
  | _, _ => false
  end.

(** The conditional rendering of [App]: an instance that stays in the tree
    keeps its state, one that enters it starts from its initial state, one
    that leaves it is dropped. *)
Definition render (p : Page) : Page :=
  {| app := app p;
     upload := if showsUpload (app p)
               then Some match upload p with
                         | Some st => st
                         | None => FileUpload.mount
                         end
               else None;
     chat := if showsChat (app p)
             then Some match chat p with
                       | Some st => st
                       | None => ChatInterface.mount
                       end
             else None;
     service := service p |}.

Definition start (dark : bool) : Page :=
  render {| app := {| appState := Types.UPLOAD; currentFiles := [];
                      isDarkMode := dark |};
            upload := None; chat := None;
            service := GeminiService.initial |}.

Inductive Event :=
| Pick (batch : list FileUpload.File)
       (readAsDataURL : FileUpload.File -> option string)
| TypeText (v : string)
| Send (now : nat -> Z) (reply : GeminiService.StreamReply)
| Summarize (reply : GeminiService.GenerateReply)
| Back (confirmed : bool).

Definition step (p : Page) (e : Event) : Page :=
  match e with
  | Pick batch readAsDataURL =>
      match upload p, batch with
      | Some st, _ :: _ =>
          let r := FileUpload.processFiles readAsDataURL handleFileSelect
                     batch st (app p) in
          render {| app := FileUpload.parent r;
                    upload := Some (FileUpload.state r);
                    chat := chat p; service := service p |}
      | _, _ => p
      end
  | TypeText v =>
      match chat p with
      | Some st =>
          {| app := app p; upload := upload p;
             chat := Some (ChatInterface.setInputValue v st);
             service := service p |}
      | None => p
      end
  | Send now reply =>
      match chat p with
      | Some st =>
          let '(s', st') :=
            ChatInterface.handleSendMessage (currentFiles (app p)) now reply
              (service p) st in
          {| app := app p; upload := upload p; chat := Some st'; service := s' |}
      | None => p
      end
  | Summarize reply =>
      match chat p with
      | Some st =>
          let '(s', st') :=
            ChatInterface.handleGenerateSummary (currentFiles (app p)) reply
              (service p) st in
          {| app := app p; upload := upload p; chat := Some st'; service := s' |}
      | None => p
      end
  | Back confirmed =>
      match chat p with
      | Some _ =>
          render {| app := handleBack confirmed (app p);
                    upload := upload p; chat := chat p; service := service p |}
      | None => p
      end
  end.

Definition run (p : Page) (es : list Event) : Page := fold_left step es p.

End App.

(* ===================================================================== *)
(** ** Scenarios *)
(* ===================================================================== *)

Module Scenario.

Definition report : FileUpload.File :=
  {| FileUpload.name := "report.pdf"; FileUpload.type := "application/pdf";
     FileUpload.size := 2000000 |}.

Definition minutes : FileUpload.File :=
  {| FileUpload.name := "minutes.pdf"; FileUpload.type := "application/pdf";
     FileUpload.size := 4096 |}.

Definition notes : FileUpload.File :=
  {| FileUpload.name := "notes.txt"; FileUpload.type := "text/plain";
     FileUpload.size := 10 |}.

Definition huge : FileUpload.File :=
  {| FileUpload.name := "huge.pdf"; FileUpload.type := "application/pdf";
     FileUpload.size := 20 * 1024 * 1024 + 1 |}.

(** A reader that succeeds on every file. *)
Definition reader (file : FileUpload.File) : option string :=
  Some (GeminiService.dataURL (FileUpload.type file) "JVBERi0x").

Definition clock (k : nat) : Z := 1700000000000 + Z.of_nat k.

Definition answer (t : string) : GeminiService.StreamReply :=
  {| GeminiService.chunks := [Some t]; GeminiService.failed := false |}.

(** "Hel" arrives, then the stream fails. *)
Definition broken : GeminiService.StreamReply :=
  {| GeminiService.chunks := [Some "Hel"]; GeminiService.failed := true |}.

(** The end-to-end example: one upload, two messages. *)
Definition oneUpload : list App.Event :=
  [ App.Pick [report] reader;
    App.TypeText "What is the conclusion?";
    App.Send clock (answer "It ends well.");
    App.TypeText "Explain more";
    App.Send clock (answer "Here is more.") ].

(** The same, then back to the upload screen, a second document set and a
    message about it. *)
Definition twoUploads : list App.Event :=
  oneUpload ++
  [ App.Back true;
    App.Pick [minutes] reader;
    App.TypeText "Who attended?";
    App.Send clock (answer "Everyone.") ].

(** A chat view in which a message has been typed. *)
Definition typed (v : string) : ChatInterface.State :=
  ChatInterface.setInputValue v ChatInterface.mount.

Definition uploaded : list Types.UploadedFile :=
  [ {| Types.name := "report.pdf"; Types.type := "application/pdf";
       Types.data := GeminiService.dataURL "application/pdf" "JVBERi0x";
       Types.size := 2000000 |} ].

Definition live : GeminiService.Service :=
  GeminiService.initializeChat GeminiService.initial.

End Scenario.

(* ===================================================================== *)
(** ** components/ChatInterface.tsx, the export and the header *)
(* ===================================================================== *)

Module ChatView.

Definition setIsExportMenuOpen (b : bool) (st : ChatInterface.State)
    : ChatInterface.State :=
  {| ChatInterface.messages := ChatInterface.messages st;
     ChatInterface.inputValue := ChatInterface.inputValue st;
     ChatInterface.isLoading := ChatInterface.isLoading st;
     ChatInterface.isExportMenuOpen := b;
     ChatInterface.streamingContent := ChatInterface.streamingContent st;
     ChatInterface.isListening := ChatInterface.isListening st;
     ChatInterface.isSummaryModalOpen := ChatInterface.isSummaryModalOpen st;
     ChatInterface.isSummarizing := ChatInterface.isSummarizing st;
     ChatInterface.summaryContent := ChatInterface.summaryContent st |}.

(** [arr.join(sep)] *)
Fixpoint join (sep : string) (l : list string) : string :=
  match l with
  | [] => ""
  | x :: rest =>
      match rest with
      | [] => x
      | _ :: _ => x +++ sep +++ join sep rest
      end
  end.

(** [s.repeat(n)] *)
Fixpoint repeatString (s : string) (n : nat) : string :=
  match n with
  | O => ""
  | S k => s +++ repeatString s k
  end.

(** [files.reduce((acc, file) => acc + file.size, 0)] *)
Definition totalSize (files : list Types.UploadedFile) : Z :=
  fold_left (fun acc file => (acc + Types.size file)%Z) files 0%Z.

(** What [downloadFile] is called with. *)
Record Download := {
  content : string;
  fileName : string;
  contentType : string
}.

Section TextExport.

Variable files : list Types.UploadedFile.

(** [new Date(t).toLocaleTimeString()], which depends on the locale. *)
Variable toLocaleTimeString : Z -> string.

(** [new Date().toLocaleString()] and [Date.now()] at the time of export. *)
Variable exportedOn : string.
Variable now : Z.

Definition header : string :=
  "DocuChat AI Conversation" +++ JS.nl +++
  "Documents: " +++ join ", " (map Types.name files) +++ JS.nl +++
  "Exported on: " +++ exportedOn +++ JS.nl +++ JS.nl.

Definition roleLabel (msg : Types.Message) : string :=
  match Types.role msg with
  | Types.user => "USER"
  | Types.model => "AI"
  end.

Definition block (msg : Types.Message) : string :=
  "[" +++ toLocaleTimeString (Types.timestamp msg) +++ "] " +++ roleLabel msg
  +++ ":" +++ JS.nl +++ Types.text msg +++ JS.nl +++ repeatString "-" 20.

Definition exportAsTxt (st : ChatInterface.State) : Download * ChatInterface.State :=
  let body := join (JS.nl +++ JS.nl) (map block (ChatInterface.messages st)) in
  ({| content := header +++ body;
      fileName := "docuchat-export-" +++ JS.toString now +++ ".txt";
      contentType := "text/plain" |},
   setIsExportMenuOpen false st).

End TextExport.

End ChatView.

(* ===================================================================== *)
(** ** Vocabulary of the statements about whole runs *)
(* ===================================================================== *)

Module Reach.

Fixpoint allSpace (s : string) : bool :=
  match s with
  | EmptyString => true
  | String c r => (JS.isSpace c && allSpace r)%bool
  end.

Definition startsWithSpace (s : string) : bool :=
  match s with
  | EmptyString => false
  | String c _ => JS.isSpace c
  end.


(** An uploaded file that went through the validation of the upload view. *)
Definition validated (u : Types.UploadedFile) : Prop :=
  Types.type u = "application/pdf" /\ (Types.size u <= 20 * 1024 * 1024)%Z.

Definition pdfPart (p : GeminiService.Part) : Prop :=
  match p with
  | GeminiService.InlineData _ mimeType => mimeType = "application/pdf"
  | GeminiService.TextPart _ => True
  end.

Definition pdfCall (c : GeminiService.Call) : Prop :=
  match c with
  | GeminiService.ChatsCreate _ _ => True
  | GeminiService.ChatSend _ parts => Forall pdfPart parts
  | GeminiService.GenerateContent _ parts _ => Forall pdfPart parts
  end.

(** A conversation made of exchanges: a user turn with a text, then a model
    turn that is an answer or the failure turn. *)
Fixpoint exchanges (l : list Types.Message) : Prop :=
  match l with
  | [] => True
  | u :: rest =>
      match rest with
      | [] => False
      | m :: rest' =>
          Types.role u = Types.user
          /\ Types.isError u = None
          /\ Types.text u <> ""
          /\ Types.role m = Types.model
          /\ (Types.isError m = None
              \/ (Types.isError m = Some true
                  /\ Types.text m = ChatInterface.DISPATCH_FAILURE))
          /\ exchanges rest'
      end
  end.

(** A chat view between two handlers. *)
Definition idle (st : ChatInterface.State) : Prop :=
  ChatInterface.isLoading st = false
  /\ ChatInterface.streamingContent st = ""
  /\ ChatInterface.isSummarizing st = false.

Definition mounted (p : App.Page) : Prop :=
  match App.appState (App.app p) with
  | Types.UPLOAD =>
      App.currentFiles (App.app p) = []
      /\ (exists st, App.upload p = Some st)
      /\ App.chat p = None
  | Types.CHAT =>
      App.currentFiles (App.app p) <> []
      /\ App.upload p = None
      /\ exists st, App.chat p = Some st
                    /\ exchanges (ChatInterface.messages st) /\ idle st
  end.

(** What every page of a run satisfies. *)
Definition pageOk (p : App.Page) : Prop :=
  mounted p
  /\ Forall validated (App.currentFiles (App.app p))
  /\ Forall pdfCall (GeminiService.calls (App.service p))
  /\ GeminiService.oneSession (App.service p).

Definition stays (e : App.Event) : bool :=
  match e with
  | App.Back true => false
  | _ => true
  end.

(** A run in which the user never leaves the chat view. *)
Definition noBack (es : list App.Event) : bool := forallb stays es.

(** The dispatches of such a run: nothing yet, or one message with files
    followed by messages without. *)
Definition firstOnly (ds : list (GeminiService.Chat * bool)) : Prop :=
  ds = [] \/ exists n, ds = (0, true) :: repeat (0, false) n.

(** Where a run without going back stands: nothing dispatched and an empty
    conversation if there is one, or a first message with files, then
    messages without, and a conversation that is not empty. *)
Definition tracked (p : App.Page) : Prop :=
  (GeminiService.dispatches (GeminiService.calls (App.service p)) = []
   /\ forall st, App.chat p = Some st -> ChatInterface.messages st = [])
  \/ exists n st,
       GeminiService.dispatches (GeminiService.calls (App.service p))
       = (0, true) :: repeat (0, false) n
       /\ App.chat p = Some st
       /\ ChatInterface.messages st <> [].

End Reach.

(* ===================================================================== *)
(** * Properties *)
(* ===================================================================== *)

(** ** Strings *)

Section StringFacts.

Lemma append_nil_r (s : string) : s +++ "" = s.
Proof. induction s as [|c s IH]; simpl; congruence. Qed.

Lemma append_assoc (a b c : string) : (a +++ b) +++ c = a +++ b +++ c.
Proof. induction a as [|x a IH]; simpl; congruence. Qed.

Lemma append_cancel_l (a b c : string) : a +++ b = a +++ c -> b = c.
Proof. induction a as [|x a IH]; simpl; intros H; [assumption|]. injection H; auto. Qed.

Lemma prefix_append (n b : string) : String.prefix n (n +++ b) = true.
Proof.
  induction n as [|c n IH]; simpl.
  - destruct b; reflexivity.
  - destruct (ascii_dec c c) as [_|ne]; [assumption | congruence].
Qed.

Lemma includes_here (n b : string) : JS.includes n (n +++ b) = true.
Proof.
  destruct n as [|c n].
  - destruct b; reflexivity.
  - change (String c n +++ b) with (String c (n +++ b)).
    unfold JS.includes; fold JS.includes.
    change (String c (n +++ b)) with (String c n +++ b).
    rewrite prefix_append. reflexivity.
Qed.

Lemma includes_later (n a b : string) :
  JS.includes n b = true -> JS.includes n (a +++ b) = true.
Proof.
  intros H. induction a as [|c a IH]; simpl; [assumption|].
  rewrite IH. apply orb_true_r.
Qed.

Lemma includes_middle (n a b : string) : JS.includes n (a +++ n +++ b) = true.
Proof. apply includes_later, includes_here. Qed.

End StringFacts.

(** ** [split] and the prefix-stripping expression *)

Section Stripping.

Import GeminiService.

Lemma split_cons (sep : ascii) (s : string) :
  exists h t, JS.split sep s = h :: t.
Proof.
  induction s as [|c s [h [t IH]]]; simpl; eauto.
  destruct (Ascii.eqb c sep); eauto. rewrite IH. eauto.
Qed.

Lemma split_none (sep : ascii) (s : string) :
  JS.hasChar sep s = false -> JS.split sep s = [s].
Proof.
  induction s as [|c s IH]; simpl; intros H; [reflexivity|].
  apply orb_false_elim in H as [Hc Hs]. rewrite Hc, (IH Hs). reflexivity.
Qed.

Lemma split_at (sep : ascii) (a b : string) :
  JS.hasChar sep a = false ->
  JS.split sep (a +++ String sep b) = a :: JS.split sep b.
Proof.
  induction a as [|c a IH]; simpl; intros H.
  - rewrite Ascii.eqb_refl. reflexivity.
  - apply orb_false_elim in H as [Hc Ha]. rewrite Hc, (IH Ha). reflexivity.
Qed.

Lemma hasChar_append (c : ascii) (a b : string) :
  JS.hasChar c (a +++ b) = (JS.hasChar c a || JS.hasChar c b)%bool.
Proof.
  induction a as [|x a IH]; simpl; [reflexivity|].
  rewrite IH. apply orb_assoc.
Qed.

(** With a comma-free head and a comma-free, non-empty first segment the
    expression yields that segment, whatever follows it. *)
Lemma base64Data_segment (a seg tail : string) :
  JS.hasChar JS.comma a = false ->
  JS.hasChar JS.comma seg = false ->
  seg <> "" ->
  (tail = "" \/ exists rest, tail = String JS.comma rest) ->
  base64Data (a +++ String JS.comma (seg +++ tail)) = seg.
Proof.
  intros Ha Hs Hne Ht. unfold base64Data.
  rewrite (split_at _ _ _ Ha).
  assert (exists t, JS.split JS.comma (seg +++ tail) = seg :: t) as [t E].
  { destruct Ht as [->|[rest ->]].
    - rewrite append_nil_r, (split_none _ _ Hs). eauto.
    - rewrite (split_at _ _ _ Hs). eauto. }
  rewrite E. simpl. destruct seg; [congruence | reflexivity].
Qed.

(** With an empty first segment the whole string comes back. *)
Lemma base64Data_empty_segment (a tail : string) :
  JS.hasChar JS.comma a = false ->
  (tail = "" \/ exists rest, tail = String JS.comma rest) ->
  base64Data (a +++ String JS.comma tail) = a +++ String JS.comma tail.
Proof.
  intros Ha Ht. unfold base64Data.
  rewrite (split_at _ _ _ Ha).
  destruct Ht as [->|[rest ->]]; simpl; rewrite ?Ascii.eqb_refl; reflexivity.
Qed.

Lemma base64Data_no_comma (data : string) :
  JS.hasChar JS.comma data = false -> base64Data data = data.
Proof. intros H. unfold base64Data. rewrite (split_none _ _ H). reflexivity. Qed.

Lemma dataURL_shape (mime payload : string) :
  dataURL mime payload
  = ("data:" +++ mime +++ ";base64") +++ String JS.comma (payload +++ "").
Proof.
  unfold dataURL. rewrite append_nil_r, !append_assoc. simpl. reflexivity.
Qed.

(** The intended case of the expression: a data URL with a non-empty
    payload is reduced to its payload, which is also what an unprefixed
    payload is left as. *)
Lemma base64Data_dataURL (mime payload : string) :
  JS.hasChar JS.comma mime = false ->
  JS.hasChar JS.comma payload = false ->
  payload <> "" ->
  base64Data (dataURL mime payload) = payload
  /\ base64Data payload = payload.
Proof.
  intros Hm Hp Hne. split; [|apply base64Data_no_comma; assumption].
  rewrite dataURL_shape. apply base64Data_segment; auto.
  simpl. rewrite hasChar_append, Hm. reflexivity.
Qed.

End Stripping.

(** ** The summary request *)

Section Summary.

Import GeminiService.

Lemma or_else_truthy (v : JS.maybe) (d : string) :
  JS.truthy v = true -> JS.or_else v d = match v with Some t => t | None => d end.
Proof. unfold JS.or_else. intros ->. reflexivity. Qed.

Lemma or_else_falsy (v : JS.maybe) (d : string) :
  JS.truthy v = false -> JS.or_else v d = d.
Proof. unfold JS.or_else. intros ->. reflexivity. Qed.

Lemma generateSummary_service (files : list Types.UploadedFile)
    (reply : GenerateReply) (s : Service) :
  snd (generateSummary files reply s)
  = emit (GenerateContent MODEL_NAME
            (map filePart files ++ [TextPart SUMMARY_PROMPT])
            SYSTEM_INSTRUCTION) s.
Proof. unfold generateSummary. destruct reply; reflexivity. Qed.

End Summary.

(** C10 (as amended).  The expression [data.split(',')[1] || data]:
    a string without a comma is transmitted unchanged; a string whose
    segment after the first comma is empty (nothing follows the comma, or a
    second comma follows it at once) is transmitted whole, prefix included;
    and a string with two or more commas whose segment between the first and
    the second comma is not empty is transmitted as that segment only, which
    is not the full substring after the first comma. *)
Theorem C10_strip_edge_cases :
  (forall data,
      JS.hasChar JS.comma data = false ->
      GeminiService.base64Data data = data)
  /\ (forall data,
      JS.index (JS.split JS.comma data) 1 = Some "" ->
      GeminiService.base64Data data = data)
  /\ (forall a rest,
      JS.hasChar JS.comma a = false ->
      GeminiService.base64Data (a +++ ",") = a +++ ","
      /\ GeminiService.base64Data (a +++ "," +++ "," +++ rest)
         = a +++ "," +++ "," +++ rest)
  /\ (forall a seg rest,
      JS.hasChar JS.comma a = false ->
      JS.hasChar JS.comma seg = false ->
      seg <> "" ->
      GeminiService.base64Data (a +++ "," +++ seg +++ "," +++ rest) = seg
      /\ GeminiService.base64Data (a +++ "," +++ seg +++ "," +++ rest)
         <> seg +++ "," +++ rest).
Proof.
  split; [exact base64Data_no_comma|].
  split.
  { intros data H. unfold GeminiService.base64Data. rewrite H. reflexivity. }
  split.
  { intros a rest Ha. split.
    - apply (base64Data_empty_segment a ""); auto.
    - apply (base64Data_empty_segment a (String JS.comma rest)); eauto. }
  intros a seg rest Ha Hs Hne.
  assert (E : GeminiService.base64Data (a +++ "," +++ seg +++ "," +++ rest) = seg).
  { apply (base64Data_segment a seg (String JS.comma rest)); eauto. }
  split; [exact E|].
  rewrite E. intros H.
  rewrite <- (append_nil_r seg) in H at 1.
  apply append_cancel_l in H. discriminate.
Qed.

(** C10, the claim as written fails: ["a,,b"] has two commas, and what is
    transmitted is the whole string, not the (empty) segment between the
    first and the second comma. *)
Lemma C10_counterexample :
  JS.split JS.comma "a,,b" = ["a"; ""; "b"]
  /\ GeminiService.base64Data "a,,b" = "a,,b"
  /\ GeminiService.base64Data "a,,b" <> "".
Proof. repeat split; try reflexivity. discriminate. Qed.

(** C6, at the failing input.  The data URL of an empty payload keeps its
    prefix: what is transmitted for it is the whole string, while the
    unprefixed empty payload is transmitted as the empty string. *)
Theorem C6_empty_payload_keeps_prefix :
  GeminiService.dataURL "application/pdf" "" = "data:application/pdf;base64,"
  /\ GeminiService.base64Data (GeminiService.dataURL "application/pdf" "")
     = "data:application/pdf;base64,"
  /\ GeminiService.base64Data "" = ""
  /\ GeminiService.filePart
       {| Types.name := "empty.pdf"; Types.type := "application/pdf";
          Types.data := GeminiService.dataURL "application/pdf" "";
          Types.size := 0 |}
     = GeminiService.InlineData "data:application/pdf;base64," "application/pdf".
Proof. repeat split; reflexivity. Qed.

(** C9.  A successful [generateSummary] never resolves to the empty string:
    when the response's text is absent or empty the result is the fixed
    fallback, otherwise it is the text. *)
Theorem C9_summary_never_empty (files : list Types.UploadedFile)
    (text : JS.maybe) (s : GeminiService.Service) :
  exists summary,
    fst (GeminiService.generateSummary files (GeminiService.GenerateOk text) s)
    = GeminiService.Resolved summary
    /\ summary <> ""
    /\ (text = None \/ text = Some "" ->
        summary = "I was unable to generate a summary for these documents.")
    /\ (forall t, text = Some t -> t <> "" -> summary = t).
Proof.
  simpl. eexists. split; [reflexivity|].
  destruct text as [[|c t]|]; simpl.
  - split; [discriminate|]. split; [reflexivity|].
    intros t [= <-] H. congruence.
  - split; [discriminate|]. split.
    + intros [H|H]; discriminate.
    + intros t' [= <-] _. reflexivity.
  - split; [discriminate|]. split; [reflexivity|].
    intros t H. discriminate.
Qed.

(** ** The session and the dispatcher *)

Section Dispatcher.

Import GeminiService.

Lemma ensureSession_some (s : Service) :
  exists h, chatSession (ensureSession s) = Some h.
Proof. unfold ensureSession. destruct (chatSession s) eqn:E; simpl; eauto. Qed.

Lemma ensureSession_existing (s : Service) (h : Chat) :
  chatSession s = Some h -> ensureSession s = s.
Proof. unfold ensureSession. intros ->. reflexivity. Qed.

Lemma ensureSession_twice (s : Service) :
  ensureSession (ensureSession s) = ensureSession s.
Proof.
  destruct (ensureSession_some s) as [h E].
  exact (ensureSession_existing _ _ E).
Qed.

(** The loop, seen from its result: the skipped chunks leave no trace. *)
Lemma consume_total {U : Type} (onChunk : option (string -> U -> U))
    (cs : list JS.maybe) (acc : string) (u : U) :
  fst (consume onChunk cs acc u) = fold_left String.append (fragments cs) acc.
Proof.
  revert acc u. induction cs as [|[[|c t]|] cs IH]; intros acc u; simpl; auto.
Qed.

Lemma consume_record (cs : list JS.maybe) (acc : string) (seen : list string) :
  snd (consume (Some record) cs acc seen) = seen ++ running acc (fragments cs).
Proof.
  revert acc seen. induction cs as [|[[|c t]|] cs IH]; intros acc seen; simpl; auto.
  - symmetry. apply app_nil_r.
  - rewrite IH. unfold record. rewrite <- app_assoc. reflexivity.
Qed.

Lemma fragments_nonempty (cs : list JS.maybe) :
  Forall (fun d => d <> "") (fragments cs).
Proof.
  induction cs as [|[[|c t]|] cs IH]; simpl; auto.
  constructor; [discriminate | assumption].
Qed.

Lemma running_length (acc : string) (ds : list string) :
  List.length (running acc ds) = List.length ds.
Proof. revert acc. induction ds as [|d ds IH]; intros acc; simpl; auto. Qed.

Lemma running_growing (acc : string) (ds : list string) :
  Forall (fun d => d <> "") ds -> growing (running acc ds).
Proof.
  intros H. revert acc. induction H as [|d ds Hd Hds IH]; intros acc; [exact I|].
  destruct Hds as [|d' ds' Hd' Hds']; [exact I|].
  split; [exists d'; auto | apply (IH (acc +++ d))].
Qed.

Lemma running_last_from (ds : list string) (acc d0 : string) :
  last (acc :: running acc ds) d0 = fold_left String.append ds acc.
Proof.
  revert acc. induction ds as [|d ds IH]; intros acc; [reflexivity|].
  simpl fold_left. rewrite <- IH. reflexivity.
Qed.

Lemma running_last (acc : string) (ds : list string) :
  last (running acc ds) acc = fold_left String.append ds acc.
Proof.
  destruct ds as [|d ds]; [reflexivity|].
  simpl running. simpl fold_left. apply running_last_from.
Qed.

(** One dispatch, seen from the service: the session is ensured and one
    message goes through it. *)
Lemma sendMessageStream_shape {U : Type} (text : string)
    (files : option (list Types.UploadedFile))
    (onChunk : option (string -> U -> U)) (reply : StreamReply)
    (s : Service) (u : U) :
  exists h,
    chatSession (ensureSession s) = Some h
    /\ sendMessageStream text files onChunk reply s u
       = (if failed reply then Rejected ApiError
          else Resolved (fst (consume onChunk (chunks reply) "" u)),
          emit (ChatSend h (messageParts text files)) (ensureSession s),
          snd (consume onChunk (chunks reply) "" u)).
Proof.
  destruct (ensureSession_some s) as [h E]. exists h. split; [assumption|].
  unfold sendMessageStream. rewrite E.
  destruct (consume onChunk (chunks reply) "" u) as [full u'].
  destruct (failed reply); reflexivity.
Qed.

End Dispatcher.

(** C1 (as amended).  For every finite stream, the dispatcher adds each
    fragment with a non-empty text to a running total and calls the progress
    callback with the running total after each of them (chunks whose text is
    empty or absent are skipped); every value the callback sees extends the
    one before; and, unless the stream fails, the value returned is the last
    value given to the callback (the empty string when there was none).  For
    the fragments "Hello", " world", "!" the callback sees "Hello",
    "Hello world", "Hello world!" and the last of them is returned. *)
Theorem C1_stream_accumulation (text : string)
    (files : option (list Types.UploadedFile))
    (reply : GeminiService.StreamReply) (s : GeminiService.Service) :
  let out := GeminiService.sendMessageStream text files
               (Some GeminiService.record) reply s [] in
  let seen := snd out in
  let ds := GeminiService.fragments (GeminiService.chunks reply) in
  seen = GeminiService.running "" ds
  /\ List.length seen = List.length ds
  /\ GeminiService.growing seen
  /\ fst (fst out)
     = (if GeminiService.failed reply
        then GeminiService.Rejected GeminiService.ApiError
        else GeminiService.Resolved (last seen ""))
  /\ last seen "" = GeminiService.total ds
  /\ (GeminiService.chunks reply = [Some "Hello"; Some " world"; Some "!"] ->
      seen = ["Hello"; "Hello world"; "Hello world!"]
      /\ last seen "" = "Hello world!").
Proof.
  intros out seen ds.
  destruct (sendMessageStream_shape text files (Some GeminiService.record)
              reply s []) as [h [_ E]].
  assert (Hseen : seen = GeminiService.running "" ds).
  { unfold seen, out. rewrite E. simpl snd. rewrite consume_record. reflexivity. }
  split; [exact Hseen|].
  split; [rewrite Hseen; apply running_length|].
  split; [rewrite Hseen; apply running_growing, fragments_nonempty|].
  split; [|split].
  - unfold out. rewrite E. simpl fst.
    rewrite consume_total, Hseen, running_last. reflexivity.
  - rewrite Hseen. apply running_last.
  - intros Hc. rewrite Hseen. unfold ds. rewrite Hc. split; reflexivity.
Qed.

(** C1, the claim as written fails: given the cumulative fragments "Hello",
    "Hello world", "Hello world!" the callback does not see that sequence
    and the value returned is not the last fragment, because the dispatcher
    concatenates; and a chunk with an empty or absent text triggers no call
    of the callback. *)
Lemma C1_counterexample :
  snd (GeminiService.sendMessageStream "q" None (Some GeminiService.record)
         {| GeminiService.chunks :=
              [Some "Hello"; Some "Hello world"; Some "Hello world!"];
            GeminiService.failed := false |}
         GeminiService.initial [])
  = ["Hello"; "HelloHello world"; "HelloHello worldHello world!"]
  /\ fst (fst (GeminiService.sendMessageStream "q" None (Some GeminiService.record)
         {| GeminiService.chunks :=
              [Some "Hello"; Some "Hello world"; Some "Hello world!"];
            GeminiService.failed := false |}
         GeminiService.initial []))
     = GeminiService.Resolved "HelloHello worldHello world!"
  /\ snd (GeminiService.sendMessageStream "q" None (Some GeminiService.record)
         {| GeminiService.chunks := [Some "Hel"; Some ""; None; Some "lo"];
            GeminiService.failed := false |}
         GeminiService.initial [])
     = ["Hel"; "Hello"].
Proof. repeat split; reflexivity. Qed.

(** ** Sessions over a whole run of the page *)

Section Sessions.

Import GeminiService.

Lemma oneSession_initial : oneSession initial.
Proof. reflexivity. Qed.

Lemma oneSession_ensure (s : Service) : oneSession s -> oneSession (ensureSession s).
Proof.
  unfold oneSession, ensureSession.
  destruct (chatSession s) eqn:E; simpl; [rewrite E; auto|].
  intros ->. auto.
Qed.

Lemma oneSession_emit (c : Call) (s : Service) : oneSession s -> oneSession (emit c s).
Proof. exact (fun H => H). Qed.

Lemma oneSession_created (s : Service) : oneSession s -> created s <= 1.
Proof. unfold oneSession. destruct (chatSession s); [intros [-> _] | intros ->]; lia. Qed.

Lemma handleSendMessage_service (files : list Types.UploadedFile)
    (now : nat -> Z) (reply : StreamReply) (s : Service)
    (st : ChatInterface.State) :
  fst (ChatInterface.handleSendMessage files now reply s st) = s
  \/ exists h parts,
       chatSession (ensureSession s) = Some h
       /\ fst (ChatInterface.handleSendMessage files now reply s st)
          = emit (ChatSend h parts) (ensureSession s).
Proof.
  unfold ChatInterface.handleSendMessage.
  destruct (JS.isEmpty _ || ChatInterface.isLoading st)%bool; [left; reflexivity|].
  right.
  match goal with
  | |- context [sendMessageStream ?t ?f ?c ?r ?s0 ?u] =>
      destruct (sendMessageStream_shape t f c r s0 u) as [h [E ->]]
  end.
  exists h. eexists. split; [exact E | reflexivity].
Qed.

Lemma handleGenerateSummary_service (files : list Types.UploadedFile)
    (reply : GenerateReply) (s : Service) (st : ChatInterface.State) :
  fst (ChatInterface.handleGenerateSummary files reply s st) = s
  \/ exists c, fst (ChatInterface.handleGenerateSummary files reply s st) = emit c s.
Proof.
  unfold ChatInterface.handleGenerateSummary.
  destruct (ChatInterface.isSummarizing st); [left; reflexivity|].
  right. pose proof (generateSummary_service files reply s) as E.
  destruct (generateSummary files reply s) as [result s']. simpl in E. subst s'.
  eexists. reflexivity.
Qed.

Lemma oneSession_step (p : App.Page) (e : App.Event) :
  oneSession (App.service p) -> oneSession (App.service (App.step p e)).
Proof.
  intros H. destruct e as [batch rd|v|now reply|reply|confirmed]; simpl.
  - destruct (App.upload p); [destruct batch|]; assumption.
  - destruct (App.chat p); assumption.
  - destruct (App.chat p) as [st|]; [|assumption].
    pose proof (handleSendMessage_service (App.currentFiles (App.app p))
                  now reply (App.service p) st) as E.
    destruct (ChatInterface.handleSendMessage _ _ _ _ _) as [s' st'].
    simpl in *. destruct E as [->|[h [parts [_ ->]]]]; [assumption|].
    apply oneSession_emit, oneSession_ensure, H.
  - destruct (App.chat p) as [st|]; [|assumption].
    pose proof (handleGenerateSummary_service (App.currentFiles (App.app p))
                  reply (App.service p) st) as E.
    destruct (ChatInterface.handleGenerateSummary _ _ _ _) as [s' st'].
    simpl in *. destruct E as [->|[c ->]]; [assumption|].
    apply oneSession_emit, H.
  - destruct (App.chat p); assumption.
Qed.

Lemma oneSession_run (es : list App.Event) (p : App.Page) :
  oneSession (App.service p) -> oneSession (App.service (App.run p es)).
Proof.
  revert p. induction es as [|e es IH]; intros p H; [assumption|].
  simpl. apply IH, oneSession_step, H.
Qed.

End Sessions.

(** C2.  When a session handle exists, the session-ensure path (the guard at
    the head of [sendMessageStream]) changes nothing: no session is created
    and the handle is the same, through a whole dispatch as well.  From any
    state, ensuring twice is ensuring once.  Over any run of the page at
    most one session is ever created. *)
Theorem C2_session_ensure_idempotent (s : GeminiService.Service)
    (h : GeminiService.Chat) :
  GeminiService.chatSession s = Some h ->
  GeminiService.ensureSession s = s
  /\ GeminiService.chatSession (GeminiService.ensureSession s) = Some h
  /\ GeminiService.created (GeminiService.ensureSession s) = GeminiService.created s
  /\ (forall (U : Type) text files onChunk reply (u : U),
        let s' := snd (fst (GeminiService.sendMessageStream text files onChunk
                              reply s u)) in
        GeminiService.chatSession s' = Some h
        /\ GeminiService.created s' = GeminiService.created s
        /\ GeminiService.calls s'
           = GeminiService.calls s
             ++ [GeminiService.ChatSend h (GeminiService.messageParts text files)])
  /\ (forall s0,
        GeminiService.ensureSession (GeminiService.ensureSession s0)
        = GeminiService.ensureSession s0
        /\ GeminiService.chatSession (GeminiService.ensureSession s0)
           = Some (match GeminiService.chatSession s0 with
                   | Some h0 => h0
                   | None => GeminiService.created s0
                   end))
  /\ (forall dark es,
        GeminiService.created (App.service (App.run (App.start dark) es)) <= 1).
Proof.
  intros Hs.
  pose proof (ensureSession_existing s h Hs) as E.
  split; [exact E|]. rewrite E.
  split; [exact Hs|]. split; [reflexivity|]. split; [|split].
  - intros U text files onChunk reply u s'.
    destruct (sendMessageStream_shape text files onChunk reply s u) as [h' [E' R]].
    unfold s'. rewrite R, E in *. simpl.
    assert (h' = h) as -> by congruence. auto.
  - intros s0. split; [apply ensureSession_twice|].
    unfold GeminiService.ensureSession.
    destruct (GeminiService.chatSession s0) eqn:E0; [assumption | reflexivity].
  - intros dark es. apply oneSession_created, oneSession_run. reflexivity.
Qed.

Lemma C2_witness :
  GeminiService.ensureSession Scenario.live = Scenario.live
  /\ GeminiService.created
       (snd (fst (GeminiService.sendMessageStream "Explain more" None
                    (Some GeminiService.record) (Scenario.answer "Here is more.")
                    Scenario.live [])))
     = 1.
Proof.
  pose proof (C2_session_ensure_idempotent Scenario.live 0 eq_refl) as H.
  split; [exact (proj1 H)|].
  exact (proj1 (proj2 (proj1 (proj2 (proj2 (proj2 H)))
                         (list string) "Explain more" None
                         (Some GeminiService.record)
                         (Scenario.answer "Here is more.") []))).
Defined.

(** ** Batch validation *)

Section Validation.

Import FileUpload.

Lemma wrongType_iff (file : File) :
  wrongType file = true <-> type file <> "application/pdf".
Proof.
  unfold wrongType. destruct (String.eqb_spec (type file) "application/pdf") as [E|E].
  - simpl. split; [discriminate | congruence].
  - simpl. split; auto.
Qed.

Lemma wrongType_false (file : File) :
  wrongType file = false <-> type file = "application/pdf".
Proof.
  unfold wrongType. destruct (String.eqb_spec (type file) "application/pdf") as [E|E].
  - simpl. split; auto.
  - simpl. split; [discriminate | congruence].
Qed.

Lemma tooLarge_iff (file : File) :
  tooLarge file = true <-> (20 * 1024 * 1024 < size file)%Z.
Proof. unfold tooLarge. rewrite Z.gtb_lt. reflexivity. Qed.

Lemma tooLarge_false (file : File) :
  tooLarge file = false <-> (size file <= 20 * 1024 * 1024)%Z.
Proof.
  unfold tooLarge. rewrite Z.gtb_ltb, Z.ltb_ge. reflexivity.
Qed.

(** The loop stops at the first file it does not accept, with that file's
    message. *)
Lemma validate_some (batch : list File) (message : string) :
  validate batch = Some message ->
  exists pre file post,
    batch = pre ++ file :: post
    /\ Forall accepted pre
    /\ ((wrongType file = true /\ message = typeMessage)
        \/ (wrongType file = false /\ tooLarge file = true
            /\ message = sizeMessage file)).
Proof.
  induction batch as [|f batch IH]; simpl; [discriminate|].
  destruct (wrongType f) eqn:Ew.
  - intros [= <-]. exists [], f, batch. auto.
  - destruct (tooLarge f) eqn:El.
    + intros [= <-]. exists [], f, batch. auto 6.
    + intros H. destruct (IH H) as [pre [file [post [-> [Hpre Hfile]]]]].
      exists (f :: pre), file, post. split; [reflexivity|]. split; [|assumption].
      constructor; [|assumption].
      split; [apply wrongType_false, Ew | apply tooLarge_false, El].
Qed.

Lemma validate_none (batch : list File) :
  validate batch = None -> Forall accepted batch.
Proof.
  induction batch as [|f batch IH]; simpl; [constructor|].
  destruct (wrongType f) eqn:Ew; [discriminate|].
  destruct (tooLarge f) eqn:El; [discriminate|].
  intros H. constructor; [|auto].
  split; [apply wrongType_false, Ew | apply tooLarge_false, El].
Qed.

Lemma validate_violation (batch : list File) (file : File) :
  In file batch ->
  type file <> "application/pdf" \/ (20 * 1024 * 1024 < size file)%Z ->
  exists message, validate batch = Some message.
Proof.
  intros Hin Hbad. destruct (validate batch) eqn:E; [eauto|].
  apply validate_none in E. rewrite Forall_forall in E.
  destruct (E file Hin) as [Ht Hs]. destruct Hbad; [congruence | lia].
Qed.

Lemma processFiles_rejected {P : Type} (readAsDataURL : File -> option string)
    (onFileSelect : list Types.UploadedFile -> P -> P)
    (batch : list File) (st : State) (p : P) (message : string) :
  validate batch = Some message ->
  processFiles readAsDataURL onFileSelect batch st p
  = {| state := setError (Some message) (setError None st);
       parent := p; reads := [] |}.
Proof.
  intros H. unfold processFiles. destruct batch; [discriminate|].
  rewrite H. reflexivity.
Qed.

End Validation.

(** C4.  Batch validation is atomic.  If some file of the batch has a type
    other than application/pdf or a size above 20 * 1024 * 1024 bytes, then
    no file of the batch is handed to a reader, the file-select callback
    leaves the parent as it was (it is not called), and the error shown is
    the one of the first offending file in batch order, every file before it
    being acceptable. *)
Theorem C4_batch_validation_atomic {P : Type}
    (readAsDataURL : FileUpload.File -> option string)
    (onFileSelect : list Types.UploadedFile -> P -> P)
    (batch : list FileUpload.File) (st : FileUpload.State) (p : P) :
  (exists file, In file batch
     /\ (FileUpload.type file <> "application/pdf"
         \/ (20 * 1024 * 1024 < FileUpload.size file)%Z)) ->
  let r := FileUpload.processFiles readAsDataURL onFileSelect batch st p in
  FileUpload.reads r = []
  /\ FileUpload.parent r = p
  /\ FileUpload.isLoading (FileUpload.state r) = FileUpload.isLoading st
  /\ exists pre first post,
       batch = pre ++ first :: post
       /\ Forall FileUpload.accepted pre
       /\ (FileUpload.type first <> "application/pdf"
           \/ (20 * 1024 * 1024 < FileUpload.size first)%Z)
       /\ FileUpload.error (FileUpload.state r)
          = Some (if FileUpload.wrongType first
                  then "Only PDF files are allowed."
                  else FileUpload.sizeMessage first).
Proof.
  intros [file [Hin Hbad]] r.
  destruct (validate_violation batch file Hin Hbad) as [message Hv].
  unfold r. rewrite (processFiles_rejected _ _ _ _ _ _ Hv). simpl.
  repeat (split; [reflexivity|]).
  destruct (validate_some batch message Hv)
    as [pre [first [post [-> [Hpre [[Hw ->]|[Hw [Hl ->]]]]]]]];
    exists pre, first, post; rewrite Hw;
    (split; [reflexivity|]); (split; [assumption|]); (split; [|reflexivity]).
  - left. apply wrongType_iff, Hw.
  - right. apply tooLarge_iff, Hl.
Qed.

Lemma C4_witness :
  FileUpload.reads
    (FileUpload.processFiles Scenario.reader App.handleFileSelect
       [Scenario.report; Scenario.notes; Scenario.huge] FileUpload.mount
       (App.app (App.start false)))
  = []
  /\ FileUpload.parent
       (FileUpload.processFiles Scenario.reader App.handleFileSelect
          [Scenario.report; Scenario.notes; Scenario.huge] FileUpload.mount
          (App.app (App.start false)))
     = App.app (App.start false).
Proof.
  assert (H : exists file,
             In file [Scenario.report; Scenario.notes; Scenario.huge]
             /\ (FileUpload.type file <> "application/pdf"
                 \/ (20 * 1024 * 1024 < FileUpload.size file)%Z)).
  { exists Scenario.huge. split; [simpl; auto|]. right. reflexivity. }
  pose proof (C4_batch_validation_atomic Scenario.reader App.handleFileSelect
                [Scenario.report; Scenario.notes; Scenario.huge]
                FileUpload.mount (App.app (App.start false)) H) as T.
  split; [exact (proj1 T) | exact (proj1 (proj2 T))].
Defined.

(** C5 (as amended).  Every rejected batch has a first offending file, and
    the report depends on the constraint it breaks: for a size above 20 MiB
    the report names that file and the 20MB limit; for a type other than
    application/pdf the report is the fixed sentence "Only PDF files are
    allowed.", which states the constraint and names no file. *)
Theorem C5_failure_report {P : Type}
    (readAsDataURL : FileUpload.File -> option string)
    (onFileSelect : list Types.UploadedFile -> P -> P)
    (batch : list FileUpload.File) (st : FileUpload.State) (p : P)
    (message : string) :
  FileUpload.validate batch = Some message ->
  FileUpload.error
    (FileUpload.state
       (FileUpload.processFiles readAsDataURL onFileSelect batch st p))
  = Some message
  /\ exists pre first post,
       batch = pre ++ first :: post
       /\ Forall FileUpload.accepted pre
       /\ ((FileUpload.type first <> "application/pdf"
            /\ message = "Only PDF files are allowed."
            /\ JS.includes "PDF" message = true)
           \/ (FileUpload.type first = "application/pdf"
               /\ (20 * 1024 * 1024 < FileUpload.size first)%Z
               /\ message
                  = "File " +++ JS.dquote +++ FileUpload.name first
                    +++ JS.dquote +++ " exceeds 20MB limit."
               /\ JS.includes (FileUpload.name first) message = true
               /\ JS.includes "20MB" message = true)).
Proof.
  intros Hv. rewrite (processFiles_rejected _ _ _ _ _ _ Hv). simpl.
  split; [reflexivity|].
  destruct (validate_some batch message Hv)
    as [pre [first [post [-> [Hpre [[Hw ->]|[Hw [Hl ->]]]]]]]];
    exists pre, first, post; (split; [reflexivity|]); (split; [assumption|]).
  - left. split; [apply wrongType_iff, Hw|]. split; reflexivity.
  - right. split; [apply wrongType_false, Hw|].
    split; [apply tooLarge_iff, Hl|]. split; [reflexivity|].
    unfold FileUpload.sizeMessage. split.
    + rewrite <- (append_assoc "File " JS.dquote). apply includes_middle.
    + rewrite <- !append_assoc. apply includes_later. reflexivity.
Qed.

Lemma C5_witness :
  FileUpload.error
    (FileUpload.state
       (FileUpload.processFiles Scenario.reader App.handleFileSelect
          [Scenario.report; Scenario.huge] FileUpload.mount
          (App.app (App.start false))))
  = Some ("File " +++ JS.dquote +++ "huge.pdf" +++ JS.dquote
          +++ " exceeds 20MB limit.").
Proof.
  exact (proj1 (C5_failure_report Scenario.reader App.handleFileSelect
                  [Scenario.report; Scenario.huge] FileUpload.mount
                  (App.app (App.start false)) _ eq_refl)).
Defined.

(** C5, the claim as written fails: the report for a file of the wrong type
    does not name the file. *)
Lemma C5_counterexample :
  FileUpload.error
    (FileUpload.state
       (FileUpload.processFiles Scenario.reader App.handleFileSelect
          [Scenario.notes] FileUpload.mount (App.app (App.start false))))
  = Some "Only PDF files are allowed."
  /\ JS.includes (FileUpload.name Scenario.notes) "Only PDF files are allowed."
     = false.
Proof. split; reflexivity. Qed.

(** ** The chat view *)

Section Chat.

Import GeminiService.

Lemma dispatches_app (a b : list Call) :
  dispatches (a ++ b) = dispatches a ++ dispatches b.
Proof.
  induction a as [|[m i|h parts|m parts i] a IH]; simpl; auto.
  rewrite IH. reflexivity.
Qed.

(** While a reply streams in, only the streaming buffer of the view moves. *)
Lemma consume_streaming (cs : list JS.maybe) (acc w : string)
    (st : ChatInterface.State) :
  exists w',
    snd (consume (Some ChatInterface.setStreamingContent) cs acc
           (ChatInterface.setStreamingContent w st))
    = ChatInterface.setStreamingContent w' st.
Proof.
  revert acc w. induction cs as [|[[|c t]|] cs IH]; intros acc w; simpl; eauto.
Qed.

(** What an accepted send does, whatever the reply. *)
Lemma handleSendMessage_accepted (files : list Types.UploadedFile)
    (now : nat -> Z) (reply : StreamReply) (s : Service)
    (st : ChatInterface.State) :
  JS.trim (ChatInterface.inputValue st) <> "" ->
  ChatInterface.isLoading st = false ->
  exists h full,
    chatSession (ensureSession s) = Some h
    /\ ChatInterface.handleSendMessage files now reply s st
       = (emit (ChatSend h
                  (messageParts (JS.trim (ChatInterface.inputValue st))
                     (if Nat.eqb (List.length (ChatInterface.messages st)) 0
                      then Some files else None)))
            (ensureSession s),
          {| ChatInterface.messages :=
               ChatInterface.messages st
               ++ [ChatInterface.userMessage now
                     (JS.trim (ChatInterface.inputValue st));
                   if failed reply then ChatInterface.errorMessage now
                   else ChatInterface.modelMessage now full];
             ChatInterface.inputValue := "";
             ChatInterface.isLoading := false;
             ChatInterface.isExportMenuOpen := ChatInterface.isExportMenuOpen st;
             ChatInterface.streamingContent := "";
             ChatInterface.isListening := ChatInterface.isListening st;
             ChatInterface.isSummaryModalOpen := ChatInterface.isSummaryModalOpen st;
             ChatInterface.isSummarizing := ChatInterface.isSummarizing st;
             ChatInterface.summaryContent := ChatInterface.summaryContent st |}).
Proof.
  intros Hin Hl. unfold ChatInterface.handleSendMessage.
  assert (G : JS.isEmpty (JS.trim (ChatInterface.inputValue st)) = false).
  { destruct (JS.trim (ChatInterface.inputValue st)); [congruence | reflexivity]. }
  rewrite G, Hl. simpl orb. cbv iota.
  match goal with
  | |- context [sendMessageStream ?t ?f ?c ?r ?s0 ?u] =>
      destruct (sendMessageStream_shape t f c r s0 u) as [h [E ->]];
      destruct (consume_streaming (chunks r) "" ""
                  (ChatInterface.setIsLoading true
                     (ChatInterface.setMessages
                        (fun prev => prev ++ [ChatInterface.userMessage now t])
                        (ChatInterface.setInputValue "" st)))) as [w' W];
      exists h, (fst (consume c (chunks r) "" u))
  end.
  split; [exact E|]. rewrite W.
  destruct (failed reply); simpl;
    unfold ChatInterface.setStreamingContent, ChatInterface.setIsLoading,
      ChatInterface.setMessages, ChatInterface.setInputValue; simpl;
    rewrite <- app_assoc; reflexivity.
Qed.

(** Within one chat view the files go out with the first message only:
    they are passed on exactly when the message list is empty, and after an
    accepted send the list is not empty any more. *)
Lemma first_message_rule (files : list Types.UploadedFile)
    (now : nat -> Z) (reply : StreamReply) (s : Service)
    (st : ChatInterface.State) :
  JS.trim (ChatInterface.inputValue st) <> "" ->
  ChatInterface.isLoading st = false ->
  files <> [] ->
  let out := ChatInterface.handleSendMessage files now reply s st in
  (exists h,
     dispatches (calls (fst out))
     = dispatches (calls s)
       ++ [(h, Nat.eqb (List.length (ChatInterface.messages st)) 0)])
  /\ Nat.eqb (List.length (ChatInterface.messages (snd out))) 0 = false
  /\ ChatInterface.isLoading (snd out) = false.
Proof.
  intros Hin Hl Hf out.
  destruct (handleSendMessage_accepted files now reply s st Hin Hl)
    as [h [full [E R]]].
  unfold out. rewrite R. simpl fst. simpl snd. split; [exists h|split].
  - simpl calls. rewrite dispatches_app. f_equal.
    + unfold ensureSession. destruct (chatSession s); [reflexivity|].
      simpl. rewrite dispatches_app, app_nil_r. reflexivity.
    + simpl. f_equal. f_equal.
      destruct (List.length (ChatInterface.messages st)); simpl.
      * destruct files as [|f fs]; [congruence | reflexivity].
      * reflexivity.
  - simpl. rewrite length_app. simpl. rewrite Nat.add_comm. reflexivity.
  - reflexivity.
Qed.

End Chat.

(** C7.  A send whose dispatch fails, after any number of fragments, adds to
    the conversation the user's turn and exactly one assistant turn; that
    turn carries the fixed failure message and the error flag, whatever had
    been received; the streaming buffer is empty afterwards and the view
    accepts the next message. *)
Theorem C7_dispatch_failure_discards_partial (files : list Types.UploadedFile)
    (now : nat -> Z) (reply : GeminiService.StreamReply)
    (s : GeminiService.Service) (st : ChatInterface.State) :
  GeminiService.failed reply = true ->
  JS.trim (ChatInterface.inputValue st) <> "" ->
  ChatInterface.isLoading st = false ->
  let out := ChatInterface.handleSendMessage files now reply s st in
  let st' := snd out in
  ChatInterface.messages st'
  = ChatInterface.messages st
    ++ [ChatInterface.userMessage now (JS.trim (ChatInterface.inputValue st));
        ChatInterface.errorMessage now]
  /\ Types.role (ChatInterface.errorMessage now) = Types.model
  /\ Types.text (ChatInterface.errorMessage now)
     = "I'm sorry, I encountered an error while processing your request. Please try again."
  /\ Types.isError (ChatInterface.errorMessage now) = Some true
  /\ Types.role (ChatInterface.userMessage now
                   (JS.trim (ChatInterface.inputValue st))) = Types.user
  /\ ChatInterface.streamingContent st' = ""
  /\ ChatInterface.isLoading st' = false
  /\ (forall v now2 reply2,
        JS.trim v <> "" ->
        exists answer,
          ChatInterface.messages
            (snd (ChatInterface.handleSendMessage files now2 reply2 (fst out)
                    (ChatInterface.setInputValue v st')))
          = ChatInterface.messages st'
            ++ [ChatInterface.userMessage now2 (JS.trim v); answer]).
Proof.
  intros Hf Hin Hl out st'.
  destruct (handleSendMessage_accepted files now reply s st Hin Hl)
    as [h [full [_ R]]].
  unfold st', out. rewrite R, Hf. simpl.
  repeat (split; [reflexivity|]).
  intros v now2 reply2 Hv.
  match goal with
  | |- context [ChatInterface.handleSendMessage _ _ _ ?s1 ?st1] =>
      destruct (handleSendMessage_accepted files now2 reply2 s1 st1 Hv eq_refl)
        as [h2 [full2 [_ R2]]]; rewrite R2
  end.
  simpl. eexists. reflexivity.
Qed.

Lemma C7_witness :
  map Types.text
    (ChatInterface.messages
       (snd (ChatInterface.handleSendMessage Scenario.uploaded Scenario.clock
               Scenario.broken GeminiService.initial
               (Scenario.typed "What is the conclusion?"))))
  = ["What is the conclusion?";
     "I'm sorry, I encountered an error while processing your request. Please try again."].
Proof.
  rewrite (proj1 (C7_dispatch_failure_discards_partial Scenario.uploaded
                    Scenario.clock Scenario.broken GeminiService.initial
                    (Scenario.typed "What is the conclusion?")
                    eq_refl
                    (fun H : JS.trim "What is the conclusion?" = "" =>
                       eq_ind (JS.trim "What is the conclusion?")
                         (fun t => match t with
                                   | EmptyString => False
                                   | String _ _ => True
                                   end) I "" H)
                    eq_refl)).
  reflexivity.
Defined.

(** C8.  [generateSummary] leaves the session handle as it was, creates no
    session, sends nothing through a session, and its result does not depend
    on the service state it runs in.  When the summary fails, the
    conversation's messages (and the input, the loading flag and the streaming
    buffer) are unchanged and the summary surface shows the generic failure
    message. *)
Theorem C8_summary_independent_of_session (files : list Types.UploadedFile)
    (reply : GeminiService.GenerateReply) (s : GeminiService.Service)
    (st : ChatInterface.State) :
  ChatInterface.isSummarizing st = false ->
  let out := GeminiService.generateSummary files reply s in
  let view := ChatInterface.handleGenerateSummary files
                GeminiService.GenerateFail s st in
  GeminiService.chatSession (snd out) = GeminiService.chatSession s
  /\ GeminiService.created (snd out) = GeminiService.created s
  /\ GeminiService.dispatches (GeminiService.calls (snd out))
     = GeminiService.dispatches (GeminiService.calls s)
  /\ (forall s2, fst (GeminiService.generateSummary files reply s2) = fst out)
  /\ GeminiService.chatSession (fst view) = GeminiService.chatSession s
  /\ ChatInterface.messages (snd view) = ChatInterface.messages st
  /\ ChatInterface.inputValue (snd view) = ChatInterface.inputValue st
  /\ ChatInterface.isLoading (snd view) = ChatInterface.isLoading st
  /\ ChatInterface.streamingContent (snd view) = ChatInterface.streamingContent st
  /\ ChatInterface.summaryContent (snd view)
     = "Failed to generate summary. Please check your connection and try again."
  /\ ChatInterface.isSummarizing (snd view) = false.
Proof.
  intros Hs out view. unfold out, view.
  rewrite generateSummary_service.
  unfold ChatInterface.handleGenerateSummary. rewrite Hs. simpl.
  split; [reflexivity|]. split; [reflexivity|].
  split; [rewrite dispatches_app; simpl; apply app_nil_r|].
  split; [intros s2; destruct reply; reflexivity|].
  repeat split; reflexivity.
Qed.

Lemma C8_witness :
  GeminiService.chatSession
    (snd (GeminiService.generateSummary Scenario.uploaded
            GeminiService.GenerateFail Scenario.live))
  = Some 0
  /\ ChatInterface.messages
       (snd (ChatInterface.handleGenerateSummary Scenario.uploaded
               GeminiService.GenerateFail Scenario.live ChatInterface.mount))
     = [].
Proof.
  pose proof (C8_summary_independent_of_session Scenario.uploaded
                GeminiService.GenerateFail Scenario.live ChatInterface.mount
                eq_refl) as H.
  split; [exact (proj1 H)|].
  exact (proj1 (proj2 (proj2 (proj2 (proj2 (proj2 H)))))).
Defined.

(** The end-to-end example: the session is created once, the file goes out
    with the first message and not with the second. *)
Example one_upload_two_messages :
  GeminiService.dispatches
    (GeminiService.calls
       (App.service (App.run (App.start false) Scenario.oneUpload)))
  = [(0, true); (0, false)].
Proof. vm_compute. reflexivity. Qed.

(** C3, at the failing input.  The session handle outlives the chat view:
    after going back and choosing a second document set, the first message
    of the new view is the third message of the one session, and it carries
    file payloads again. *)
Theorem C3_files_attached_again_after_new_upload :
  GeminiService.dispatches
    (GeminiService.calls
       (App.service (App.run (App.start false) Scenario.twoUploads)))
  = [(0, true); (0, false); (0, true)]
  /\ GeminiService.created
       (App.service (App.run (App.start false) Scenario.twoUploads)) = 1
  /\ nth_error
       (GeminiService.calls
          (App.service (App.run (App.start false) Scenario.twoUploads))) 3
     = Some (GeminiService.ChatSend 0
               [GeminiService.InlineData "JVBERi0x" "application/pdf";
                GeminiService.TextPart "Who attended?"]).
Proof. vm_compute. repeat split; reflexivity. Qed.

(* ===================================================================== *)
(** * Further properties of the code *)
(* ===================================================================== *)

(** ** Reading a validated batch *)

Section Reading.

Import FileUpload.

(** The uploaded file made from [file] and the data URL [d]. *)
Lemma readOne_some (rd : File -> option string) (file : File) (u : Types.UploadedFile) :
  readOne rd file = Some u ->
  Types.name u = name file /\ Types.type u = type file
  /\ Types.size u = size file /\ rd file = Some (Types.data u).
Proof.
  unfold readOne. destruct (rd file) as [d|]; [|discriminate].
  intros [= <-]. simpl. auto.
Qed.

Lemma readAll_some (rd : File -> option string) (batch : list File)
    (us : list Types.UploadedFile) :
  readAll rd batch = Some us ->
  Forall2 (fun file u =>
             Types.name u = name file /\ Types.type u = type file
             /\ Types.size u = size file /\ rd file = Some (Types.data u))
          batch us.
Proof.
  revert us. induction batch as [|f batch IH]; simpl; intros us.
  - intros [= <-]. constructor.
  - destruct (readOne rd f) as [u|] eqn:E; [|discriminate].
    destruct (readAll rd batch) as [us'|]; [|discriminate].
    intros [= <-]. constructor; [exact (readOne_some _ _ _ E) | apply IH; reflexivity].
Qed.

Lemma readAll_total (rd : File -> option string) (batch : list File) :
  (forall file, In file batch -> rd file <> None) ->
  exists us, readAll rd batch = Some us.
Proof.
  induction batch as [|f batch IH]; simpl; intros H; [eauto|].
  unfold readOne. destruct (rd f) as [d|] eqn:E.
  - destruct IH as [us ->]; [intros g Hg; apply H; auto|]. eauto.
  - exfalso. apply (H f); auto.
Qed.

Lemma readAll_none (rd : File -> option string) (batch : list File) (file : File) :
  In file batch -> rd file = None -> readAll rd batch = None.
Proof.
  induction batch as [|f batch IH]; simpl; [tauto|].
  intros [->|Hin] Hn.
  - unfold readOne. rewrite Hn. reflexivity.
  - rewrite (IH Hin Hn). destruct (readOne rd f); reflexivity.
Qed.

Lemma validate_accepted (batch : list File) :
  Forall accepted batch -> validate batch = None.
Proof.
  induction 1 as [|f batch [Ht Hs] _ IH]; simpl; [reflexivity|].
  apply wrongType_false in Ht. apply tooLarge_false in Hs.
  rewrite Ht, Hs. exact IH.
Qed.

End Reading.

(** A batch that passes validation and whose files can all be read is
    handed to the file-select callback once, as one uploaded file per file in
    batch order, each with the name, type and size of its file and the data
    URL the reader produced; no error is left on display, not even one of an
    earlier attempt, and the loading flag is down. *)
Theorem upload_accepted {P : Type}
    (readAsDataURL : FileUpload.File -> option string)
    (onFileSelect : list Types.UploadedFile -> P -> P)
    (batch : list FileUpload.File) (st : FileUpload.State) (p : P) :
  batch <> [] ->
  Forall FileUpload.accepted batch ->
  (forall file, In file batch -> readAsDataURL file <> None) ->
  let r := FileUpload.processFiles readAsDataURL onFileSelect batch st p in
  exists uploadedFiles,
    FileUpload.parent r = onFileSelect uploadedFiles p
    /\ Forall2 (fun file u =>
                  Types.name u = FileUpload.name file
                  /\ Types.type u = FileUpload.type file
                  /\ Types.size u = FileUpload.size file
                  /\ readAsDataURL file = Some (Types.data u))
               batch uploadedFiles
    /\ FileUpload.reads r = batch
    /\ FileUpload.error (FileUpload.state r) = None
    /\ FileUpload.isLoading (FileUpload.state r) = false.
Proof.
  intros Hne Hacc Hrd r.
  destruct (readAll_total readAsDataURL batch Hrd) as [us E].
  exists us. unfold r, FileUpload.processFiles.
  destruct batch as [|f batch]; [congruence|].
  rewrite (validate_accepted _ Hacc), E. simpl.
  split; [reflexivity|]. split; [apply readAll_some, E|]. auto.
Qed.

Lemma upload_accepted_witness :
  FileUpload.parent
    (FileUpload.processFiles Scenario.reader (fun files log => log ++ [files])
       [Scenario.report; Scenario.minutes]
       (FileUpload.setError (Some "Only PDF files are allowed.") FileUpload.mount)
       [])
  = [[ {| Types.name := "report.pdf"; Types.type := "application/pdf";
          Types.data := "data:application/pdf;base64,JVBERi0x";
          Types.size := 2000000 |};
       {| Types.name := "minutes.pdf"; Types.type := "application/pdf";
          Types.data := "data:application/pdf;base64,JVBERi0x";
          Types.size := 4096 |} ]].
Proof.
  destruct (upload_accepted Scenario.reader (fun files log => log ++ [files])
              [Scenario.report; Scenario.minutes]
              (FileUpload.setError (Some "Only PDF files are allowed.")
                 FileUpload.mount)
              [])
    as [us [_ _]].
  - discriminate.
  - repeat constructor; simpl; lia.
  - intros file _. discriminate.
  - reflexivity.
Defined.

(** When every file of the batch passes validation and one of them cannot be
    read, nothing of the batch is passed on: the callback is not called, the
    error is the generic processing failure and the loading flag is down
    again. *)
Theorem upload_read_failure {P : Type}
    (readAsDataURL : FileUpload.File -> option string)
    (onFileSelect : list Types.UploadedFile -> P -> P)
    (batch : list FileUpload.File) (st : FileUpload.State) (p : P) :
  Forall FileUpload.accepted batch ->
  (exists file, In file batch /\ readAsDataURL file = None) ->
  let r := FileUpload.processFiles readAsDataURL onFileSelect batch st p in
  FileUpload.parent r = p
  /\ FileUpload.error (FileUpload.state r)
     = Some "Failed to process files. Please try again."
  /\ FileUpload.isLoading (FileUpload.state r) = false
  /\ FileUpload.reads r = batch.
Proof.
  intros Hacc [file [Hin Hn]] r. unfold r, FileUpload.processFiles.
  destruct batch as [|f batch]; [destruct Hin|].
  rewrite (validate_accepted _ Hacc), (readAll_none _ _ _ Hin Hn). simpl. auto.
Qed.

Lemma upload_read_failure_witness :
  FileUpload.parent
    (FileUpload.processFiles
       (fun file => if String.eqb (FileUpload.name file) "minutes.pdf"
                    then None else Scenario.reader file)
       (fun files log => log ++ [files])
       [Scenario.report; Scenario.minutes] FileUpload.mount [])
  = [].
Proof.
  apply (upload_read_failure
           (fun file => if String.eqb (FileUpload.name file) "minutes.pdf"
                        then None else Scenario.reader file)
           (fun files log => log ++ [files])
           [Scenario.report; Scenario.minutes] FileUpload.mount []).
  - repeat constructor; simpl; lia.
  - exists Scenario.minutes. split; [simpl; auto | reflexivity].
Defined.

(** ** More on the stripping expression and the dispatcher *)

Section MoreDispatch.

Import GeminiService.

Lemma split_segments (sep : ascii) (s : string) :
  Forall (fun seg => JS.hasChar sep seg = false) (JS.split sep s).
Proof.
  induction s as [|c s IH]; simpl.
  - repeat constructor.
  - destruct (Ascii.eqb c sep) eqn:E.
    + constructor; [reflexivity | assumption].
    + destruct (JS.split sep s) as [|h t]; [repeat constructor; simpl; rewrite E; reflexivity|].
      inversion IH as [|? ? Hh Ht]; subst.
      constructor; [simpl; rewrite E; assumption | assumption].
Qed.

(** What the expression yields is the whole string or a comma-free,
    non-empty segment of it. *)
Lemma base64Data_cases (data : string) :
  base64Data data = data
  \/ (JS.hasChar JS.comma (base64Data data) = false /\ base64Data data <> "").
Proof.
  unfold base64Data.
  pose proof (split_segments JS.comma data) as H.
  destruct (JS.split JS.comma data) as [|h [|seg t]]; simpl; auto.
  destruct seg as [|c seg]; simpl; auto.
  right. inversion H as [|? ? _ H']; subst. inversion H' as [|? ? Hs _]; subst.
  split; [exact Hs | discriminate].
Qed.


Lemma messageParts_uniform (text : string)
    (files : option (list Types.UploadedFile)) :
  messageParts text files
  = map filePart (match files with Some l => l | None => [] end)
    ++ [TextPart text].
Proof. destruct files as [[|f fs]|]; reflexivity. Qed.

Lemma filter_inline_files (l : list Types.UploadedFile) (tail : list Part) :
  filter isInline (map filePart l ++ tail) = map filePart l ++ filter isInline tail.
Proof. induction l as [|f l IH]; simpl; [reflexivity | rewrite IH; reflexivity]. Qed.

End MoreDispatch.

(** Stripping is idempotent: what has been stripped once is left as it is by
    a second stripping, for every string; and only a string that is returned
    whole can still contain a comma. *)
Theorem stripping_idempotent (data : string) :
  GeminiService.base64Data (GeminiService.base64Data data)
  = GeminiService.base64Data data
  /\ (JS.hasChar JS.comma (GeminiService.base64Data data) = true ->
      GeminiService.base64Data data = data).
Proof.
  destruct (base64Data_cases data) as [E|[Hc Hne]].
  - split; [rewrite E; exact E | intros _; exact E].
  - split; [apply base64Data_no_comma, Hc | rewrite Hc; discriminate].
Qed.


(** The session is created lazily, by the first dispatch: from a state with
    no session, one dispatch creates one session, configured with the fixed
    model name and system instruction, and then sends the message through
    it; the creation comes first on the wire; and the dispatch is rejected
    only when the remote reply fails. *)
Theorem first_dispatch_creates_session {U : Type} (text : string)
    (files : option (list Types.UploadedFile))
    (onChunk : option (string -> U -> U))
    (reply : GeminiService.StreamReply) (s : GeminiService.Service) (u : U) :
  GeminiService.chatSession s = None ->
  let out := GeminiService.sendMessageStream text files onChunk reply s u in
  let s' := snd (fst out) in
  GeminiService.chatSession s' = Some (GeminiService.created s)
  /\ GeminiService.created s' = S (GeminiService.created s)
  /\ GeminiService.calls s'
     = GeminiService.calls s
       ++ [GeminiService.ChatsCreate "gemini-2.5-flash"
             GeminiService.SYSTEM_INSTRUCTION;
           GeminiService.ChatSend (GeminiService.created s)
             (GeminiService.messageParts text files)]
  /\ (GeminiService.failed reply = false ->
      exists answer, fst (fst out) = GeminiService.Resolved answer).
Proof.
  intros Hs out s'.
  destruct (sendMessageStream_shape text files onChunk reply s u) as [h [E R]].
  unfold s', out. rewrite R. simpl.
  unfold GeminiService.ensureSession in *. rewrite Hs in *. simpl in *.
  injection E as <-.
  split; [reflexivity|]. split; [reflexivity|]. split.
  - rewrite <- app_assoc. reflexivity.
  - intros ->. eauto.
Qed.

Lemma first_dispatch_creates_session_witness :
  GeminiService.chatSession
    (snd (fst (GeminiService.sendMessageStream "What is the conclusion?"
                 (Some Scenario.uploaded) (Some GeminiService.record)
                 (Scenario.answer "It ends well.") GeminiService.initial [])))
  = Some 0.
Proof.
  exact (proj1 (first_dispatch_creates_session "What is the conclusion?"
                  (Some Scenario.uploaded) (Some GeminiService.record)
                  (Scenario.answer "It ends well.") GeminiService.initial []
                  eq_refl)).
Defined.

(** The chat message and the summary request encode the files in the same
    way: both carry one inline part per file, in order, before a single text
    part that comes last.  An empty file list is treated as no file list. *)
Theorem same_file_parts (text : string) (files : list Types.UploadedFile)
    (reply : GeminiService.GenerateReply) (s : GeminiService.Service) :
  GeminiService.messageParts text (Some files)
  = map GeminiService.filePart files ++ [GeminiService.TextPart text]
  /\ GeminiService.calls (snd (GeminiService.generateSummary files reply s))
     = GeminiService.calls s
       ++ [GeminiService.GenerateContent "gemini-2.5-flash"
             (map GeminiService.filePart files
              ++ [GeminiService.TextPart GeminiService.SUMMARY_PROMPT])
             GeminiService.SYSTEM_INSTRUCTION]
  /\ filter GeminiService.isInline
       (GeminiService.messageParts text (Some files))
     = map GeminiService.filePart files
  /\ GeminiService.messageParts text (Some [])
     = GeminiService.messageParts text None
  /\ List.length (GeminiService.messageParts text (Some files))
     = S (List.length files).
Proof.
  rewrite generateSummary_service, !messageParts_uniform. simpl.
  split; [reflexivity|]. split; [reflexivity|].
  split; [rewrite filter_inline_files; simpl; apply app_nil_r|].
  split; [reflexivity|].
  rewrite length_app, length_map. simpl. apply Nat.add_comm.
Qed.

(** ** Trimming *)

Section Trimming.

Import Reach.

Lemma trimStart_blank (s : string) : allSpace s = true -> JS.trimStart s = "".
Proof.
  induction s as [|c s IH]; simpl; [reflexivity|].
  intros H. apply andb_prop in H as [Hc Hs]. rewrite Hc. auto.
Qed.

Lemma trimStart_empty (s : string) : JS.trimStart s = "" -> allSpace s = true.
Proof.
  induction s as [|c s IH]; simpl; [reflexivity|].
  destruct (JS.isSpace c); [auto | discriminate].
Qed.

Lemma trimStart_head (s : string) : startsWithSpace (JS.trimStart s) = false.
Proof.
  induction s as [|c s IH]; simpl; [reflexivity|].
  destruct (JS.isSpace c) eqn:E; [assumption | simpl; assumption].
Qed.

Lemma trimEnd_empty (s : string) : JS.trimEnd s = "" -> allSpace s = true.
Proof.
  induction s as [|c s IH]; simpl; [reflexivity|].
  destruct (JS.trimEnd s) as [|d r]; [|discriminate].
  destruct (JS.isSpace c); [intros _; auto | discriminate].
Qed.



Lemma blank_starts (s : string) :
  allSpace s = true -> startsWithSpace s = false -> s = "".
Proof.
  destruct s as [|c s]; simpl; [reflexivity|].
  intros H Hc. rewrite Hc in H. discriminate.
Qed.

Lemma trim_blank (s : string) : JS.trim s = "" <-> allSpace s = true.
Proof.
  unfold JS.trim. split.
  - intros H. apply trimEnd_empty in H.
    apply trimStart_empty, (blank_starts _ H), trimStart_head.
  - intros H. rewrite (trimStart_blank _ H). reflexivity.
Qed.


End Trimming.

(** ** More on the chat view *)

Section MoreChat.

Import GeminiService.

(** The two ways [handleSendMessage] can go. *)
Lemma handleSendMessage_cases (files : list Types.UploadedFile)
    (now : nat -> Z) (reply : StreamReply) (s : Service)
    (st : ChatInterface.State) :
  ((Reach.allSpace (ChatInterface.inputValue st) = true
    \/ ChatInterface.isLoading st = true)
   /\ ChatInterface.handleSendMessage files now reply s st = (s, st))
  \/ (JS.trim (ChatInterface.inputValue st) <> ""
      /\ ChatInterface.isLoading st = false).
Proof.
  destruct (ChatInterface.isLoading st) eqn:El.
  - left. split; [auto|]. unfold ChatInterface.handleSendMessage.
    rewrite El, orb_true_r. reflexivity.
  - destruct (JS.trim (ChatInterface.inputValue st)) as [|c t] eqn:Et.
    + left. split; [left; apply trim_blank, Et|].
      unfold ChatInterface.handleSendMessage. rewrite Et. reflexivity.
    + right. split; [discriminate | reflexivity].
Qed.


End MoreChat.




(** A summary request made while none is running opens the summary surface
    with a text that is never empty: the response's text, the fallback
    sentence when that text is empty or absent, or the failure sentence when
    the request fails.  It makes one stateless call and leaves the
    conversation, the input, the loading flag and the streaming buffer as
    they were.  While a summary is running a second request does nothing. *)
Theorem summary_surface (files : list Types.UploadedFile)
    (reply : GeminiService.GenerateReply) (s : GeminiService.Service)
    (st : ChatInterface.State) :
  let out := ChatInterface.handleGenerateSummary files reply s st in
  (ChatInterface.isSummarizing st = true -> out = (s, st))
  /\ (ChatInterface.isSummarizing st = false ->
      ChatInterface.summaryContent (snd out)
      = match reply with
        | GeminiService.GenerateOk (Some (String c t)) => String c t
        | GeminiService.GenerateOk _ =>
            "I was unable to generate a summary for these documents."
        | GeminiService.GenerateFail =>
            "Failed to generate summary. Please check your connection and try again."
        end
      /\ JS.isEmpty (ChatInterface.summaryContent (snd out)) = false
      /\ ChatInterface.isSummaryModalOpen (snd out) = true
      /\ ChatInterface.isSummarizing (snd out) = false
      /\ ChatInterface.messages (snd out) = ChatInterface.messages st
      /\ ChatInterface.inputValue (snd out) = ChatInterface.inputValue st
      /\ ChatInterface.isLoading (snd out) = ChatInterface.isLoading st
      /\ ChatInterface.streamingContent (snd out)
         = ChatInterface.streamingContent st
      /\ GeminiService.calls (fst out)
         = GeminiService.calls s
           ++ [GeminiService.GenerateContent "gemini-2.5-flash"
                 (map GeminiService.filePart files
                  ++ [GeminiService.TextPart GeminiService.SUMMARY_PROMPT])
                 GeminiService.SYSTEM_INSTRUCTION]
      /\ GeminiService.chatSession (fst out) = GeminiService.chatSession s).
Proof.
  intros out. unfold out, ChatInterface.handleGenerateSummary. split; intros ->.
  - reflexivity.
  - destruct reply as [[[|c t]|]|]; simpl; repeat split; reflexivity.
Qed.

(** ** Whole runs of the page *)

Section Runs.

Import GeminiService Reach.

Lemma exchanges_app (a b : list Types.Message) :
  exchanges a -> exchanges b -> exchanges (a ++ b).
Proof.
  intros Ha Hb.
  assert (H : forall n l, List.length l <= n -> exchanges l -> exchanges (l ++ b)).
  { induction n as [|n IH]; intros [|u [|m l]] Hn Hl; simpl in *;
      try assumption; try lia; try contradiction.
    destruct Hl as (H1 & H2 & H3 & H4 & H5 & H6).
    repeat (split; [assumption|]). apply IH; [lia | assumption]. }
  apply (H (List.length a)); [apply Nat.le_refl | assumption].
Qed.


Lemma fileParts_pdf (files : list Types.UploadedFile) :
  Forall validated files -> Forall pdfPart (map filePart files).
Proof.
  induction 1 as [|f files [Ht _] _ IH]; simpl; constructor; assumption.
Qed.

Lemma messageParts_pdf (text : string) (files : option (list Types.UploadedFile)) :
  (forall l, files = Some l -> Forall validated l) ->
  Forall pdfPart (messageParts text files).
Proof.
  intros H. rewrite messageParts_uniform. apply Forall_app. split.
  - destruct files as [l|]; [apply fileParts_pdf, H; reflexivity | constructor].
  - repeat constructor.
Qed.

Lemma pdfCall_emit (c : Call) (s : Service) :
  Forall pdfCall (calls s) -> pdfCall c -> Forall pdfCall (calls (emit c s)).
Proof. intros Hs Hc. simpl. apply Forall_app. split; [assumption | repeat constructor; assumption]. Qed.

Lemma pdfCall_ensure (s : Service) :
  Forall pdfCall (calls s) -> Forall pdfCall (calls (ensureSession s)).
Proof.
  intros H. unfold ensureSession. destruct (chatSession s); [assumption|].
  simpl. apply Forall_app. split; [assumption | repeat constructor].
Qed.

Lemma dispatches_ensure (s : Service) :
  dispatches (calls (ensureSession s)) = dispatches (calls s).
Proof.
  unfold ensureSession. destruct (chatSession s); [reflexivity|].
  simpl. rewrite dispatches_app. apply app_nil_r.
Qed.

(** What [handleSendMessage] keeps. *)
Lemma handleSendMessage_keeps (files : list Types.UploadedFile)
    (now : nat -> Z) (reply : StreamReply) (s : Service)
    (st : ChatInterface.State) :
  Forall validated files ->
  Forall pdfCall (calls s) ->
  exchanges (ChatInterface.messages st) ->
  idle st ->
  Forall pdfCall (calls (fst (ChatInterface.handleSendMessage files now reply s st)))
  /\ exchanges (ChatInterface.messages
                  (snd (ChatInterface.handleSendMessage files now reply s st)))
  /\ idle (snd (ChatInterface.handleSendMessage files now reply s st)).
Proof.
  intros Hf Hc Hx Hi.
  destruct (handleSendMessage_cases files now reply s st) as [[_ ->]|[Hin Hl]];
    [simpl; auto|].
  destruct (handleSendMessage_accepted files now reply s st Hin Hl)
    as [h [full [_ ->]]].
  simpl fst. simpl snd. split; [|split].
  - apply pdfCall_emit; [apply pdfCall_ensure, Hc|].
    apply messageParts_pdf. intros l.
    destruct (Nat.eqb _ 0); [intros [= <-]; assumption | discriminate].
  - simpl. apply exchanges_app; [assumption|].
    destruct (failed reply); simpl;
      (split; [reflexivity|]); (split; [reflexivity|]); (split; [assumption|]);
      (split; [reflexivity|]); (split; [|exact I]).
    + right. split; reflexivity.
    + left. reflexivity.
  - destruct Hi as (_ & _ & H3). repeat split; assumption.
Qed.

(** What [handleGenerateSummary] does to the service and keeps of the view. *)
Lemma handleGenerateSummary_keeps (files : list Types.UploadedFile)
    (reply : GenerateReply) (s : Service) (st : ChatInterface.State) :
  (fst (ChatInterface.handleGenerateSummary files reply s st) = s
   \/ fst (ChatInterface.handleGenerateSummary files reply s st)
      = emit (GenerateContent MODEL_NAME
                (map filePart files ++ [TextPart SUMMARY_PROMPT])
                SYSTEM_INSTRUCTION) s)
  /\ ChatInterface.messages (snd (ChatInterface.handleGenerateSummary files reply s st))
     = ChatInterface.messages st
  /\ (idle st -> idle (snd (ChatInterface.handleGenerateSummary files reply s st))).
Proof.
  unfold ChatInterface.handleGenerateSummary.
  destruct (ChatInterface.isSummarizing st) eqn:E; [simpl; auto|].
  destruct reply as [t|]; simpl; (split; [right; reflexivity|]);
    (split; [reflexivity|]); intros (H1 & H2 & _); repeat split; assumption.
Qed.

Lemma processFiles_parent {P : Type} (rd : FileUpload.File -> option string)
    (onFileSelect : list Types.UploadedFile -> P -> P)
    (batch : list FileUpload.File) (st : FileUpload.State) (p : P) :
  FileUpload.parent (FileUpload.processFiles rd onFileSelect batch st p) = p
  \/ exists us,
       batch <> [] /\ FileUpload.validate batch = None
       /\ FileUpload.readAll rd batch = Some us
       /\ FileUpload.parent (FileUpload.processFiles rd onFileSelect batch st p)
          = onFileSelect us p.
Proof.
  unfold FileUpload.processFiles. destruct batch as [|f batch]; [left; reflexivity|].
  destruct (FileUpload.validate (f :: batch)) eqn:Ev; [left; reflexivity|].
  destruct (FileUpload.readAll rd (f :: batch)) as [us|] eqn:Er; [|left; reflexivity].
  right. exists us. split; [discriminate|]. repeat split; reflexivity.
Qed.

Lemma uploaded_validated (rd : FileUpload.File -> option string)
    (batch : list FileUpload.File) (us : list Types.UploadedFile) :
  batch <> [] ->
  FileUpload.validate batch = None ->
  FileUpload.readAll rd batch = Some us ->
  us <> [] /\ Forall validated us.
Proof.
  intros Hne Hv Hr. apply validate_none in Hv. apply readAll_some in Hr.
  split.
  - destruct Hr; [congruence | discriminate].
  - clear Hne. induction Hr as [|f u batch us (_ & Ht & Hs & _) _ IH]; [constructor|].
    inversion Hv as [|? ? [Ha Hb] Hv']; subst.
    constructor; [split; congruence | apply IH, Hv'].
Qed.

Lemma pageOk_start (dark : bool) : pageOk (App.start dark).
Proof.
  repeat split; simpl; eauto; constructor.
Qed.

Lemma pageOk_step (p : App.Page) (e : App.Event) :
  pageOk p -> pageOk (App.step p e).
Proof.
  destruct p as [[a files d] up ch s].
  intros (Hm & Hv & Hc & Ho). unfold mounted in Hm. simpl in Hm, Hv, Hc, Ho.
  destruct e as [batch rd|v|now reply|reply|confirmed]; simpl.
  - (* Pick *)
    destruct up as [ust|]; [|repeat split; assumption].
    destruct batch as [|f batch]; [repeat split; assumption|].
    destruct a; [|destruct Hm as (_ & Hu & _); discriminate].
    destruct Hm as (-> & _ & ->).
    destruct (processFiles_parent rd App.handleFileSelect (f :: batch) ust
                {| App.appState := Types.UPLOAD; App.currentFiles := [];
                   App.isDarkMode := d |}) as [E|[us (Hne & Hval & Hr & E)]];
      rewrite E.
    + repeat split; simpl; eauto.
    + destruct (uploaded_validated rd _ us Hne Hval Hr) as [Hus Hvs].
      unfold pageOk, mounted, App.render, App.showsChat, App.showsUpload. simpl.
      destruct us as [|u us]; [congruence|].
      repeat split; simpl; eauto.
      exists ChatInterface.mount. repeat split; reflexivity.
  - (* TypeText *)
    destruct ch as [st|]; [|repeat split; assumption].
    destruct a; [destruct Hm as (_ & _ & Hch); discriminate|].
    destruct Hm as (Hf & Hu & st0 & [= <-] & Hx & Hi).
    repeat split; simpl; eauto.
  - (* Send *)
    destruct ch as [st|]; [|repeat split; assumption].
    destruct a; [destruct Hm as (_ & _ & Hch); discriminate|].
    destruct Hm as (Hf & Hu & st0 & [= <-] & Hx & Hi).
    pose proof (handleSendMessage_keeps files now reply s st Hv Hc Hx Hi)
      as (K1 & K2 & K3).
    pose proof (handleSendMessage_service files now reply s st) as K4.
    destruct (ChatInterface.handleSendMessage files now reply s st) as [s' st'].
    simpl in *. repeat split; simpl; eauto.
    destruct K4 as [->|(h & parts & _ & ->)]; [assumption|].
    apply oneSession_emit, oneSession_ensure, Ho.
  - (* Summarize *)
    destruct ch as [st|]; [|repeat split; assumption].
    destruct a; [destruct Hm as (_ & _ & Hch); discriminate|].
    destruct Hm as (Hf & Hu & st0 & [= <-] & Hx & Hi).
    pose proof (handleGenerateSummary_keeps files reply s st) as (K1 & K2 & K3).
    destruct (ChatInterface.handleGenerateSummary files reply s st) as [s' st'].
    simpl in *. repeat split; simpl; eauto.
    + exists st'. rewrite K2. auto.
    + destruct K1 as [->| ->]; [assumption|].
      apply pdfCall_emit; [assumption|]. simpl.
      apply Forall_app. split; [apply fileParts_pdf, Hv | repeat constructor].
    + destruct K1 as [->| ->]; [assumption | apply oneSession_emit, Ho].
  - (* Back *)
    destruct ch as [st|]; [|repeat split; assumption].
    destruct a; [destruct Hm as (_ & _ & Hch); discriminate|].
    destruct Hm as (Hf & Hu & st0 & [= <-] & Hx & Hi). subst up.
    destruct confirmed; simpl.
    + repeat split; simpl; eauto.
    + unfold pageOk, mounted, App.render, App.showsChat, App.showsUpload. simpl.
      destruct files as [|u files]; [congruence|].
      repeat split; simpl; eauto.
Qed.

Lemma pageOk_run (es : list App.Event) (p : App.Page) :
  pageOk p -> pageOk (App.run p es).
Proof.
  revert p. induction es as [|e es IH]; intros p H; [assumption|].
  simpl. apply IH, pageOk_step, H.
Qed.

End Runs.

Section RunsWithoutBack.

Import GeminiService Reach.

Lemma totalSize_bound (files : list Types.UploadedFile) (acc : Z) :
  Forall validated files ->
  (fold_left (fun a file => a + Types.size file) files acc
   <= acc + 20 * 1024 * 1024 * Z.of_nat (List.length files))%Z.
Proof.
  intros H. revert acc. induction H as [|f files [_ Hs] _ IH]; intros acc.
  - simpl. lia.
  - simpl fold_left. specialize (IH (acc + Types.size f)%Z).
    change (List.length (f :: files)) with (S (List.length files)). lia.
Qed.

Lemma tracked_step (p : App.Page) (e : App.Event) :
  pageOk p -> stays e = true -> tracked p -> tracked (App.step p e).
Proof.
  destruct p as [[a files d] up ch s].
  intros (Hm & Hv & Hc & Ho) He Ht. unfold mounted in Hm. unfold tracked in *.
  simpl in Hm, Hv, Hc, Ho, Ht.
  destruct e as [batch rd|v|now reply|reply|confirmed]; simpl.
  - (* Pick *)
    destruct up as [ust|]; [|exact Ht].
    destruct batch as [|f batch]; [exact Ht|].
    destruct a; [|destruct Hm as (_ & Hu & _); discriminate].
    destruct Hm as (-> & _ & ->).
    destruct Ht as [[Hd _]|(n & st & _ & Hch & _)]; [|discriminate].
    destruct (processFiles_parent rd App.handleFileSelect (f :: batch) ust
                {| App.appState := Types.UPLOAD; App.currentFiles := [];
                   App.isDarkMode := d |}) as [E|[us (Hne & Hval & Hr & E)]];
      rewrite E; left; (split; [exact Hd|]); simpl; [discriminate|].
    destruct us as [|u us]; simpl; [discriminate|].
    intros st [= <-]. reflexivity.
  - (* TypeText *)
    destruct ch as [st|]; [|exact Ht]. simpl.
    destruct Ht as [[Hd Hmsg]|(n & st0 & Hd & [= <-] & Hmsg)].
    + left. split; [exact Hd|]. intros st' [= <-]. simpl. apply Hmsg. reflexivity.
    + right. exists n, (ChatInterface.setInputValue v st). auto.
  - (* Send *)
    destruct ch as [st|]; [|exact Ht].
    destruct a; [destruct Hm as (_ & _ & Hch); discriminate|].
    destruct Hm as (Hf & Hu & st0 & [= <-] & Hx & Hi).
    destruct (handleSendMessage_cases files now reply s st) as [[_ ->]|[Hin Hl]];
      [exact Ht|].
    destruct (handleSendMessage_accepted files now reply s st Hin Hl)
      as [h [full [Eh ->]]].
    pose proof (oneSession_ensure s Ho) as Ho'. unfold oneSession in Ho'.
    rewrite Eh in Ho'. destruct Ho' as [_ ->].
    simpl. rewrite dispatches_app, dispatches_ensure. simpl.
    right.
    destruct Ht as [[Hd Hmsg]|(n & st0 & Hd & [= <-] & Hmsg)].
    + exists 0. eexists. rewrite Hd, (Hmsg st eq_refl). simpl.
      split; [|split; [reflexivity | discriminate]].
      destruct files as [|f fs]; [congruence | reflexivity].
    + exists (S n). eexists. rewrite Hd.
      split; [|split; [reflexivity|]].
      * destruct (ChatInterface.messages st) as [|m ms]; [congruence|].
        simpl. rewrite <- repeat_cons. reflexivity.
      * simpl. destruct (ChatInterface.messages st); discriminate.
  - (* Summarize *)
    destruct ch as [st|]; [|exact Ht].
    pose proof (handleGenerateSummary_keeps files reply s st) as (K1 & K2 & _).
    destruct (ChatInterface.handleGenerateSummary files reply s st) as [s' st'].
    simpl in *.
    assert (Hd : dispatches (calls s') = dispatches (calls s)).
    { destruct K1 as [->| ->]; [reflexivity|].
      simpl. rewrite dispatches_app. apply app_nil_r. }
    rewrite Hd.
    destruct Ht as [[Hd0 Hmsg]|(n & st0 & Hd0 & [= <-] & Hmsg)].
    + left. split; [exact Hd0|]. intros st'' [= <-]. rewrite K2. apply Hmsg. reflexivity.
    + right. exists n, st'. rewrite K2. auto.
  - (* Back *)
    destruct ch as [st|]; [|exact Ht].
    destruct confirmed; [discriminate|].
    destruct a; [destruct Hm as (_ & _ & Hch); discriminate|].
    destruct Hm as (Hf & Hu & st0 & [= <-] & Hx & Hi).
    unfold App.render, App.showsChat. simpl.
    destruct files as [|u files]; [congruence|]. exact Ht.
Qed.

Lemma tracked_run (es : list App.Event) (p : App.Page) :
  pageOk p -> noBack es = true -> tracked p -> tracked (App.run p es).
Proof.
  revert p. induction es as [|e es IH]; intros p Hp Hn Ht; [assumption|].
  simpl in Hn. apply andb_prop in Hn as [He Hes].
  simpl. apply IH; [apply pageOk_step, Hp | exact Hes | apply tracked_step; assumption].
Qed.

(** Declining the confirmation leaves the page as it is. *)
Lemma back_declined (p : App.Page) : pageOk p -> App.step p (App.Back false) = p.
Proof.
  destruct p as [[a files d] up ch s].
  intros (Hm & _). unfold mounted in Hm. simpl in *.
  destruct ch as [st|]; [|reflexivity].
  destruct a; [destruct Hm as (_ & _ & Hch); discriminate|].
  destruct Hm as (Hf & -> & _).
  unfold App.render, App.showsChat, App.showsUpload. simpl.
  destruct files as [|u files]; [congruence | reflexivity].
Qed.

End RunsWithoutBack.

(** On every page of every run exactly one of the two views is mounted, and
    the page is never blank: on the upload screen no files are held and the
    upload view is there; on the chat screen the file set is not empty and
    the chat view is there. *)
Theorem page_never_blank (dark : bool) (es : list App.Event) :
  let p := App.run (App.start dark) es in
  match App.appState (App.app p) with
  | Types.UPLOAD =>
      App.currentFiles (App.app p) = []
      /\ (exists st, App.upload p = Some st)
      /\ App.chat p = None
  | Types.CHAT =>
      App.currentFiles (App.app p) <> []
      /\ App.upload p = None
      /\ (exists st, App.chat p = Some st)
  end.
Proof.
  intros p.
  destruct (pageOk_run es (App.start dark) (pageOk_start dark)) as (Hm & _).
  fold p in Hm. unfold Reach.mounted in Hm.
  destruct (App.appState (App.app p)); [exact Hm|].
  destruct Hm as (H1 & H2 & st & H3 & _). eauto.
Qed.

(** Every file the application holds went through validation: on every page
    of every run each current file has the type application/pdf and a size
    of at most 20 MiB, so the total size shown in the header is at most
    20 MiB times the number of files. *)
Theorem current_files_validated (dark : bool) (es : list App.Event) :
  let files := App.currentFiles (App.app (App.run (App.start dark) es)) in
  Forall (fun u => Types.type u = "application/pdf"
                   /\ (Types.size u <= 20 * 1024 * 1024)%Z) files
  /\ (ChatView.totalSize files
      <= 20 * 1024 * 1024 * Z.of_nat (List.length files))%Z.
Proof.
  intros files.
  destruct (pageOk_run es (App.start dark) (pageOk_start dark)) as (_ & Hv & _).
  fold files in Hv. split; [exact Hv|].
  apply (totalSize_bound files 0 Hv).
Qed.

(** Nothing but PDF goes over the wire: in every call of every run, chat
    message or summary request, every inline part is declared as
    application/pdf. *)
Theorem only_pdf_on_the_wire (dark : bool) (es : list App.Event) :
  Forall (fun c =>
            match c with
            | GeminiService.ChatsCreate _ _ => True
            | GeminiService.ChatSend _ parts
            | GeminiService.GenerateContent _ parts _ =>
                Forall (fun part =>
                          match part with
                          | GeminiService.InlineData _ mimeType =>
                              mimeType = "application/pdf"
                          | GeminiService.TextPart _ => True
                          end) parts
            end)
         (GeminiService.calls (App.service (App.run (App.start dark) es))).
Proof.
  destruct (pageOk_run es (App.start dark) (pageOk_start dark)) as (_ & _ & Hc & _).
  exact Hc.
Qed.


(** As long as the user does not go back to the upload screen, files go out
    once: over a run without a confirmed Back, either nothing has been
    dispatched, or the first message went through session 0 with the files
    and every later message went through the same session without files. *)
Theorem files_once_without_back (dark : bool) (es : list App.Event) :
  Reach.noBack es = true ->
  Reach.firstOnly
    (GeminiService.dispatches
       (GeminiService.calls (App.service (App.run (App.start dark) es)))).
Proof.
  intros Hn.
  assert (T0 : Reach.tracked (App.start dark)).
  { left. split; [reflexivity | discriminate]. }
  destruct (tracked_run es (App.start dark) (pageOk_start dark) Hn T0)
    as [[Hd _]|(n & st & Hd & _)]; rewrite Hd; [left | right; exists n]; reflexivity.
Qed.

Lemma files_once_without_back_witness :
  Reach.firstOnly
    (GeminiService.dispatches
       (GeminiService.calls
          (App.service (App.run (App.start false) Scenario.oneUpload)))).
Proof.
  exact (files_once_without_back false Scenario.oneUpload eq_refl).
Defined.

(** Back from the chat view.  Declining the confirmation leaves the whole
    page as it is.  Confirming it returns to a fresh upload view with no
    files and drops the chat view with its conversation, and leaves the
    service as it is: session handle and call log survive.  Outside the
    chat view there is no Back. *)
Theorem back_resets_page_not_service (dark : bool) (es : list App.Event) :
  let p := App.run (App.start dark) es in
  App.step p (App.Back false) = p
  /\ match App.chat p with
     | Some _ =>
         App.step p (App.Back true)
         = {| App.app := {| App.appState := Types.UPLOAD;
                            App.currentFiles := [];
                            App.isDarkMode := App.isDarkMode (App.app p) |};
              App.upload := Some FileUpload.mount;
              App.chat := None;
              App.service := App.service p |}
     | None => App.step p (App.Back true) = p
     end.
Proof.
  intros p.
  pose proof (pageOk_run es (App.start dark) (pageOk_start dark)) as Hp.
  fold p in Hp. split; [apply back_declined, Hp|].
  destruct Hp as (Hm & _). unfold Reach.mounted in Hm.
  destruct p as [[a files d] up ch s]. simpl in *.
  destruct ch as [st|]; [|reflexivity].
  destruct a; [destruct Hm as (_ & _ & Hch); discriminate|].
  destruct Hm as (_ & -> & _). reflexivity.
Qed.

(** ** The text export *)

Section Exporting.

Import ChatView.

Lemma prefix_split (n s : string) :
  String.prefix n s = true -> exists b, s = n +++ b.
Proof.
  revert s. induction n as [|c n IH]; intros s.
  - intros _. exists s. reflexivity.
  - destruct s as [|d s]; simpl; [intros H; discriminate H|].
    destruct (ascii_dec c d) as [->|]; [|intros H; discriminate H].
    intros H. destruct (IH s H) as [b ->]. exists b. reflexivity.
Qed.

Lemma includes_split (n s : string) :
  JS.includes n s = true -> exists a b, s = a +++ n +++ b.
Proof.
  induction s as [|c s IH].
  - simpl. destruct n; [|discriminate]. intros _. exists "", "". reflexivity.
  - unfold JS.includes; fold JS.includes.
    intros H. apply orb_prop in H as [H|H].
    + destruct (prefix_split _ _ H) as [b E]. exists "", b. exact E.
    + destruct (IH H) as [a [b ->]]. exists (String c a), b. reflexivity.
Qed.

Lemma includes_trans (a b c : string) :
  JS.includes a b = true -> JS.includes b c = true -> JS.includes a c = true.
Proof.
  intros Hab Hbc.
  destruct (includes_split _ _ Hab) as [x [y ->]].
  destruct (includes_split _ _ Hbc) as [u [v ->]].
  rewrite !append_assoc, <- (append_assoc u x). apply includes_middle.
Qed.

Lemma join_includes (sep x : string) (l : list string) :
  In x l -> JS.includes x (join sep l) = true.
Proof.
  induction l as [|y l IH]; [intros []|].
  intros [->|Hin]; simpl; destruct l as [|z l].
  - rewrite <- (append_nil_r x) at 2. apply includes_here.
  - apply includes_here.
  - destruct Hin.
  - apply includes_later, includes_later, IH, Hin.
Qed.

Lemma block_includes_text (toLocaleTimeString : Z -> string) (msg : Types.Message) :
  JS.includes (Types.text msg) (block toLocaleTimeString msg) = true.
Proof.
  replace (block toLocaleTimeString msg)
    with (("[" +++ toLocaleTimeString (Types.timestamp msg) +++ "] "
           +++ roleLabel msg +++ ":" +++ JS.nl)
          +++ Types.text msg +++ JS.nl +++ repeatString "-" 20)
    by (unfold block; rewrite !append_assoc; reflexivity).
  apply includes_middle.
Qed.

Lemma block_includes_label (toLocaleTimeString : Z -> string) (msg : Types.Message) :
  JS.includes (roleLabel msg +++ ":") (block toLocaleTimeString msg) = true.
Proof.
  replace (block toLocaleTimeString msg)
    with (("[" +++ toLocaleTimeString (Types.timestamp msg) +++ "] ")
          +++ (roleLabel msg +++ ":")
          +++ JS.nl +++ Types.text msg +++ JS.nl +++ repeatString "-" 20)
    by (unfold block; rewrite !append_assoc; reflexivity).
  apply includes_middle.
Qed.

Lemma includes_app_l (n a b : string) :
  JS.includes n a = true -> JS.includes n (a +++ b) = true.
Proof.
  intros H. destruct (includes_split _ _ H) as [x [y ->]].
  rewrite !append_assoc. apply includes_middle.
Qed.

Lemma header_includes_documents (files : list Types.UploadedFile)
    (exportedOn : string) :
  JS.includes (join ", " (map Types.name files)) (header files exportedOn) = true.
Proof.
  replace (header files exportedOn)
    with (("DocuChat AI Conversation" +++ JS.nl +++ "Documents: ")
          +++ join ", " (map Types.name files)
          +++ JS.nl +++ "Exported on: " +++ exportedOn +++ JS.nl +++ JS.nl)
    by (unfold header; rewrite !append_assoc; reflexivity).
  apply includes_middle.
Qed.

End Exporting.

(** The text export contains the whole conversation and names every
    document: the text of every turn, with its USER or AI label, and the
    name of every file occur in the exported content, which starts with the
    header; the download is a text/plain file named after the clock; the
    export closes the export menu and leaves the conversation as it is; and
    the export of an empty conversation is the header alone. *)
Theorem export_contains_conversation (files : list Types.UploadedFile)
    (toLocaleTimeString : Z -> string) (exportedOn : string) (now : Z)
    (st : ChatInterface.State) :
  let out := ChatView.exportAsTxt files toLocaleTimeString exportedOn now st in
  let d := fst out in
  (forall msg, In msg (ChatInterface.messages st) ->
     JS.includes (Types.text msg) (ChatView.content d) = true
     /\ JS.includes (ChatView.roleLabel msg +++ ":") (ChatView.content d) = true)
  /\ (forall file, In file files ->
        JS.includes (Types.name file) (ChatView.content d) = true)
  /\ String.prefix (ChatView.header files exportedOn) (ChatView.content d) = true
  /\ ChatView.fileName d = "docuchat-export-" +++ JS.toString now +++ ".txt"
  /\ ChatView.contentType d = "text/plain"
  /\ ChatInterface.isExportMenuOpen (snd out) = false
  /\ ChatInterface.messages (snd out) = ChatInterface.messages st
  /\ (ChatInterface.messages st = [] ->
      ChatView.content d = ChatView.header files exportedOn).
Proof.
  intros out d. unfold d, out, ChatView.exportAsTxt.
  cbn [fst snd ChatView.content ChatView.fileName ChatView.contentType].
  split; [|split; [|split; [|split; [|split; [|split; [|split]]]]]];
    try reflexivity.
  - intros msg Hin.
    assert (Hb : JS.includes (ChatView.block toLocaleTimeString msg)
                   (ChatView.join (JS.nl +++ JS.nl)
                      (map (ChatView.block toLocaleTimeString)
                         (ChatInterface.messages st))) = true).
    { apply join_includes, in_map, Hin. }
    split; apply includes_later;
      [apply (includes_trans _ _ _ (block_includes_text toLocaleTimeString msg) Hb)
      |apply (includes_trans _ _ _ (block_includes_label toLocaleTimeString msg) Hb)].
  - intros file Hin.
    assert (Hn : JS.includes (Types.name file)
                   (ChatView.join ", " (map Types.name files)) = true).
    { apply join_includes, in_map, Hin. }
    apply includes_app_l.
    exact (includes_trans _ _ _ Hn (header_includes_documents files exportedOn)).
  - apply prefix_append.
  - intros ->. cbn [map ChatView.join]. apply append_nil_r.
Qed.

(** Validation accepts exactly the batches whose files are all declared as
    application/pdf and are at most 20 * 1024 * 1024 bytes long: the bound is
    inclusive, and an empty file passes. *)
Theorem validation_exact (batch : list FileUpload.File) :
  FileUpload.validate batch = None
  <-> Forall (fun file =>
                FileUpload.type file = "application/pdf"
                /\ (FileUpload.size file <= 20 * 1024 * 1024)%Z) batch.
Proof. split; [apply validate_none | apply validate_accepted]. Qed.
